(** * Mini Citadel: the keyed portfolio store of Finance_Optimization_Snippet.py

    A shallow embedding of the three engines of the module
    ([PortfolioEngine], [ThreadSafePortfolioEngine], [DirectMemoryEngine])
    and the properties of their lookup/update contract.

    Modelling choices, all taken from the source:
    - a Python [int] is a [Z]; a Python [float] is a binary64 value, here
      Rocq's primitive [float];
    - [int / int] is Python's true division: the correctly rounded quotient,
      [ZeroDivisionError] on a zero divisor and [OverflowError] when the
      quotient does not fit a double;
    - every record of the store is a Python [dict] object that the engine
      mutates in place and hands out by reference, so records live in a heap
      and the store maps a ticker to the address of its record;
    - [self.portfolio_map] is a Python [dict]: keys are unique and keep their
      insertion order, so it is an association list updated in place;
    - a method is a computation in a state-and-exception monad: a raised
      exception keeps the mutations made before it;
    - calls are sequential, so [with self.lock] finds the lock free, runs its
      body and releases the lock: it is the identity on the body;
    - arguments have the types of their annotations ([str], [int], [float]);
    - a registered callback is code of the observers: it acts on their
      environment, may read the store, and returns or raises. *)

From Stdlib Require Import ZArith List Bool Lia.
From Stdlib Require Import Strings.String.
From Stdlib Require Import PrimFloat SpecFloat FloatOps.
From stdpp Require Import base list.

Open Scope Z_scope.

(** ** Python values *)

Module Py.

(** The exceptions the module can meet.  [DanglingReference] is not a
    Python exception: it marks a read through an address that holds no
    object, which Python references never do (see [wf]). *)
Inductive exn : Type :=
| OverflowError
| ZeroDivisionError
| KeyError (key : string)
| ObserverError (what : string)
| DanglingReference.

Inductive result (A : Type) : Type :=
| Ok (a : A)
| Raise (e : exn).
Arguments Ok {A} a.
Arguments Raise {A} e.

(** The integer [z] as an exact (unrounded) binary float. *)
Definition Z2SF (z : Z) : spec_float :=
  match z with
  | Z0 => S754_zero false
  | Zpos p => S754_finite false p 0
  | Zneg p => S754_finite true p 0
  end.

(** [a / b] on two [int]s. *)
Definition truediv (a b : Z) : result float :=
  if b =? 0 then Raise ZeroDivisionError
  else match SFdiv prec emax (Z2SF a) (Z2SF b) with
       | S754_infinity _ => Raise OverflowError
       | S754_nan => Raise OverflowError
       | q => Ok (SF2Prim q)
       end.

End Py.
Export Py.

(** ** The state-and-exception monad *)

Section Monad.
Context {St : Type}.

Definition M (A : Type) : Type := St -> result A * St.

Definition ret {A} (a : A) : M A := fun s => (Ok a, s).

Definition bind {A B} (m : M A) (k : A -> M B) : M B :=
  fun s => match m s with
           | (Ok a, s') => k a s'
           | (Raise e, s') => (Raise e, s')
           end.

Definition gets {A} (f : St -> A) : M A := fun s => (Ok (f s), s).

Definition modify (f : St -> St) : M unit := fun s => (Ok tt, f s).

Definition lift {A} (r : result A) : M A := fun s => (r, s).

(** [for x in xs: body(x)] *)
Fixpoint for_each {A} (xs : list A) (body : A -> M unit) : M unit :=
  match xs with
  | [] => ret tt
  | x :: xs' => bind (body x) (fun _ => for_each xs' body)
  end.

End Monad.
Arguments M : clear implicits.

Declare Scope py_scope.
Delimit Scope py_scope with py.
Notation "'let*' x ':=' m 'in' k" := (bind m (fun x => k))
  (at level 10, x name, m at level 100, k at level 200) : py_scope.
Notation "m1 '>>' m2" := (bind m1 (fun _ => m2))
  (at level 80, right associativity) : py_scope.
Open Scope py_scope.

(** ** Records and the store *)

(** One position record: the [dict] built by [add_stock].  The fields are
    the eight keys of the dictionary, in the order of the source:
    "종목코드" (ticker code), "종목명" (name), "보유수량" (held quantity),
    "매입가" (buy price), "현재가" (current price), "등락률" (change rate),
    "수익률" (profit rate), "평가손익" (profit/loss). *)
Record item : Type := mk_item {
  ticker_code : string;
  stock_name : string;
  quantity : Z;
  buy_price : Z;
  current_price : Z;
  change_rate : float;
  profit_rate : float;
  profit_loss : Z
}.

(** [item[key] = v], one function per key written by the engines. *)
Definition set_current_price (v : Z) (r : item) : item :=
  mk_item (ticker_code r) (stock_name r) (quantity r) (buy_price r)
          v (change_rate r) (profit_rate r) (profit_loss r).
Definition set_change_rate (v : float) (r : item) : item :=
  mk_item (ticker_code r) (stock_name r) (quantity r) (buy_price r)
          (current_price r) v (profit_rate r) (profit_loss r).
Definition set_profit_rate (v : float) (r : item) : item :=
  mk_item (ticker_code r) (stock_name r) (quantity r) (buy_price r)
          (current_price r) (change_rate r) v (profit_loss r).
Definition set_profit_loss (v : Z) (r : item) : item :=
  mk_item (ticker_code r) (stock_name r) (quantity r) (buy_price r)
          (current_price r) (change_rate r) (profit_rate r) v.

(** A reference to a record object. *)
Abbreviation loc := nat (only parsing).

(** An insertion-ordered dictionary from tickers to record references. *)
Definition dict : Type := list (string * loc).

(** [d.get(k)] *)
Fixpoint dict_get (k : string) (d : dict) : option loc :=
  match d with
  | [] => None
  | (k', v) :: d' => if String.eqb k k' then Some v else dict_get k d'
  end.

(** [d[k] = v]: an existing key keeps its place, a new key goes last. *)
Fixpoint dict_set (k : string) (v : loc) (d : dict) : dict :=
  match d with
  | [] => [(k, v)]
  | (k', v') :: d' =>
      if String.eqb k k' then (k', v) :: d' else (k', v') :: dict_set k v d'
  end.

(** [k in d] *)
Definition dict_mem (k : string) (d : dict) : bool :=
  match dict_get k d with Some _ => true | None => false end.

(** The object memory together with the engine's [portfolio_map]. *)
Record store : Type := mk_store {
  heap : list item;
  portfolio_map : dict
}.

(** What a caller sees when it reads through a reference it holds. *)
Definition deref (s : store) (l : loc) : option item := heap s !! l.

(** *** Primitive statements *)

(** A dictionary display [{...}]: a new object at a fresh address. *)
Definition new_item (r : item) : M store loc :=
  fun s => (Ok (length (heap s)), mk_store (heap s ++ [r]) (portfolio_map s)).

(** [self.portfolio_map[ticker] = ref] *)
Definition map_store (ticker : string) (l : loc) : M store unit :=
  modify (fun s => mk_store (heap s) (dict_set ticker l (portfolio_map s))).

(** [ticker in self.portfolio_map] *)
Definition map_contains (ticker : string) : M store bool :=
  gets (fun s => dict_mem ticker (portfolio_map s)).

(** [self.portfolio_map[ticker]] *)
Definition map_subscript (ticker : string) : M store loc :=
  fun s => match dict_get ticker (portfolio_map s) with
           | Some l => (Ok l, s)
           | None => (Raise (KeyError ticker), s)
           end.

(** [item[key]], the key given by its projection *)
Definition getitem {A} (l : loc) (field : item -> A) : M store A :=
  fun s => match heap s !! l with
           | Some r => (Ok (field r), s)
           | None => (Raise DanglingReference, s)
           end.

(** [item[key] = v], the key given by its setter *)
Definition setitem (l : loc) (set : item -> item) : M store unit :=
  fun s => match heap s !! l with
           | Some r => (Ok tt, mk_store (<[l := set r]> (heap s)) (portfolio_map s))
           | None => (Raise DanglingReference, s)
           end.

(** ** The summary dictionary *)

Module Summary.

(** The dictionary returned by [get_portfolio_summary]: "총매입금액"
    (total cost), "총평가금액" (total value), "총평가손익" (total
    profit/loss), "총수익률" (total return), "종목수" (number of stocks). *)
Record t : Type := mk {
  total_cost : Z;
  total_value : Z;
  total_profit : Z;
  total_return : float;
  count : nat
}.

End Summary.

(** ** PortfolioEngine *)

Module PortfolioEngine.

(** [__init__]: an empty map (and no record object yet). *)
Definition init : store := mk_store [] [].

Definition add_stock (ticker name : string) (quantity buy_price : Z) : M store unit :=
  let* it := new_item (mk_item ticker name quantity buy_price 0 0%float 0%float 0) in
  map_store ticker it.

Definition get_stock (ticker : string) : M store (option loc) :=
  gets (fun s => dict_get ticker (portfolio_map s)).

Definition update_price (ticker : string) (current_price : Z) (change_rate : float)
  : M store bool :=
  let* present := map_contains ticker in
  if negb present then ret false
  else
    let* it := map_subscript ticker in
    setitem it (set_current_price current_price) >>
    setitem it (set_change_rate change_rate) >>
    let* buy_price := getitem it buy_price in
    (if 0 <? buy_price then
       let* q := lift (truediv current_price buy_price) in
       setitem it (set_profit_rate ((q - 1) * 100)%float) >>
       let* qty := getitem it quantity in
       setitem it (set_profit_loss ((current_price - buy_price) * qty))
     else ret tt) >>
    ret true.

Definition get_all_stocks : M store (list loc) :=
  gets (fun s => map snd (portfolio_map s)).

(** The body of [for ticker, item in self.portfolio_map.items()], with the
    three running totals threaded through. *)
Fixpoint scan (items : dict) (totals : Z * Z * Z) : M store (Z * Z * Z) :=
  match items with
  | [] => ret totals
  | (ticker, it) :: rest =>
      match totals with
      | (total_cost, total_value, total_profit) =>
          let* quantity := getitem it quantity in
          let* buy_price := getitem it buy_price in
          let* current_price := getitem it current_price in
          let cost := buy_price * quantity in
          let value := current_price * quantity in
          let profit := value - cost in
          scan rest (total_cost + cost, total_value + value, total_profit + profit)
      end
  end.

Definition get_portfolio_summary : M store Summary.t :=
  let* items := gets portfolio_map in
  let* totals := scan items (0, 0, 0) in
  match totals with
  | (total_cost, total_value, total_profit) =>
      let* total_return :=
        (if 0 <? total_cost then
           let* q := lift (truediv total_value total_cost) in
           ret ((q - 1) * 100)%float
         else ret 0%float) in
      let* n := gets (fun s => length (portfolio_map s)) in
      ret (Summary.mk total_cost total_value total_profit total_return n)
  end.

End PortfolioEngine.

(** ** ThreadSafePortfolioEngine *)

Module ThreadSafePortfolioEngine.

(** The subclass keeps the state and the methods of [PortfolioEngine]. *)
Definition init : store := PortfolioEngine.init.

Definition batch_update_prices (updates : list (string * Z * float)) : M store unit :=
  for_each updates (fun u =>
    match u with
    | (ticker, price, rate) =>
        let* present := map_contains ticker in
        if present then
          let* it := map_subscript ticker in
          setitem it (set_current_price price) >>
          setitem it (set_change_rate rate) >>
          let* bp := getitem it buy_price in
          if 0 <? bp then
            let* bp1 := getitem it buy_price in
            let* q := lift (truediv price bp1) in
            setitem it (set_profit_rate ((q - 1) * 100)%float) >>
            let* bp2 := getitem it buy_price in
            let* qty := getitem it quantity in
            setitem it (set_profit_loss ((price - bp2) * qty))
          else ret tt
        else ret tt
    end).

End ThreadSafePortfolioEngine.

(** ** DirectMemoryEngine *)

Module DirectMemoryEngine.
Section Observers.

(** The observers' side of the program (the UI), which the engine never
    touches itself. *)
Context {Env : Type}.

(** A registered callable.  The engine calls it with no argument; it runs
    on the observers' environment, may read the store, and returns or
    raises. *)
Definition callback : Type := store -> Env -> result unit * Env.

Record world : Type := mk_world {
  engine : store;
  update_callbacks : list callback;
  outside : Env
}.

(** [__init__] *)
Definition init (env : Env) : world := mk_world (mk_store [] []) [] env.

(** A statement on the engine's records. *)
Definition on_store {A} (m : M store A) : M world A :=
  fun w => match m (engine w) with
           | (r, s') => (r, mk_world s' (update_callbacks w) (outside w))
           end.

(** [callback()] *)
Definition invoke (cb : callback) : M world unit :=
  fun w => match cb (engine w) (outside w) with
           | (r, env') => (r, mk_world (engine w) (update_callbacks w) env')
           end.


(** The statements of [update_and_notify] under [with self.lock]. *)
Definition locked_update (ticker : string) (price : Z) (rate : float) : M store unit :=
  let* present := map_contains ticker in
  if present then
    let* it := map_subscript ticker in
    setitem it (set_current_price price) >>
    setitem it (set_change_rate rate) >>
    let* bp := getitem it buy_price in
    if 0 <? bp then
      let* bp1 := getitem it buy_price in
      let* q := lift (truediv price bp1) in
      setitem it (set_profit_rate ((q - 1) * 100)%float) >>
      let* bp2 := getitem it buy_price in
      let* qty := getitem it quantity in
      setitem it (set_profit_loss ((price - bp2) * qty))
    else ret tt
  else ret tt.

Definition update_and_notify (ticker : string) (price : Z) (rate : float) : M world unit :=
  on_store (locked_update ticker price rate) >>
  let* callbacks := gets update_callbacks in
  for_each callbacks invoke.

Definition get_data_for_ui : M world (list loc * nat) :=
  on_store (gets (fun s => (map snd (portfolio_map s), length (portfolio_map s)))).


End Observers.
Arguments callback : clear implicits.
Arguments world : clear implicits.
End DirectMemoryEngine.

(** ** The specification's formulas *)

Module Spec.

(** The derived-field calculator [recompute(costBasis, currentPrice,
    quantity)], as the specification words it: a profit rate of 0 when
    [costBasis <= 0], [(currentPrice / costBasis - 1) * 100] otherwise, and
    a profit/loss of [(currentPrice - costBasis) * quantity] in both
    cases.  The quotient is the float quotient of the two integers, so it
    exists only where [truediv] returns. *)
Definition profitRate (costBasis currentPrice : Z) : result float :=
  if costBasis <=? 0 then Ok 0%float
  else match truediv currentPrice costBasis with
       | Ok q => Ok ((q - 1) * 100)%float
       | Raise e => Raise e
       end.

Definition profitLoss (costBasis currentPrice quantity : Z) : Z :=
  (currentPrice - costBasis) * quantity.

(** A record whose derived fields agree with its own price, cost basis and
    quantity. *)
Definition consistent (r : item) : Prop :=
  profitRate (buy_price r) (current_price r) = Ok (profit_rate r)
  /\ profit_loss r = profitLoss (buy_price r) (current_price r) (quantity r).

(** The aggregate return: [(totalValue / totalCost - 1) * 100] when
    [totalCost > 0], 0 otherwise. *)
Definition totalReturn (totalCost totalValue : Z) : result float :=
  if 0 <? totalCost then
    match truediv totalValue totalCost with
    | Ok q => Ok ((q - 1) * 100)%float
    | Raise e => Raise e
    end
  else Ok 0%float.

(** The sum of [f] over the records. *)
Definition total (f : item -> Z) (recs : list item) : Z :=
  fold_right (fun r acc => f r + acc) 0 recs.

(** [costBasis * quantity] and [currentPrice * quantity] of a record. *)
Definition cost (r : item) : Z := buy_price r * quantity r.
Definition value (r : item) : Z := current_price r * quantity r.

End Spec.

(** ** Views of a store *)

(** The records behind a list of references, when none dangles. *)
Fixpoint deref_all (s : store) (ls : list loc) : option (list item) :=
  match ls with
  | [] => Some []
  | l :: ls' =>
      match deref s l, deref_all s ls' with
      | Some r, Some rs => Some (r :: rs)
      | _, _ => None
      end
  end.

(** The records of the store, in the order of the map. *)
Definition records (s : store) : option (list item) :=
  deref_all s (map snd (portfolio_map s)).

(** The record a ticker names. *)
Definition record_of (s : store) (ticker : string) : option item :=
  match dict_get ticker (portfolio_map s) with
  | Some l => deref s l
  | None => None
  end.

(** A store as the engines build it: the keys of the map are distinct, no two
    tickers share a record object, and every reference of the map is live. *)
Definition wf (s : store) : Prop :=
  NoDup (map fst (portfolio_map s))
  /\ NoDup (map snd (portfolio_map s))
  /\ Forall (fun kv => (snd kv < length (heap s))%nat) (portfolio_map s).

(** What the update statements do to one record: price and change rate are
    written first, the derived fields only under [buy_price > 0], and a
    division that raises leaves the first two writes in place. *)
Definition reprice (price : Z) (rate : float) (r : item) : result unit * item :=
  let r1 := set_change_rate rate (set_current_price price r) in
  if 0 <? buy_price r then
    match truediv price (buy_price r) with
    | Ok q =>
        (Ok tt, set_profit_loss ((price - buy_price r) * quantity r)
                  (set_profit_rate ((q - 1) * 100)%float r1))
    | Raise e => (Raise e, r1)
    end
  else (Ok tt, r1).

(** The same on the store, for the record [ticker] names. *)
Definition reprice_at (ticker : string) (price : Z) (rate : float) (s : store)
  : result bool * store :=
  match dict_get ticker (portfolio_map s) with
  | None => (Ok false, s)
  | Some l =>
      match heap s !! l with
      | None => (Raise DanglingReference, s)
      | Some r =>
          (match fst (reprice price rate r) with
           | Ok _ => Ok true
           | Raise e => Raise e
           end,
           mk_store (<[l := snd (reprice price rate r)]> (heap s)) (portfolio_map s))
      end
  end.

(** The statements that follow the membership test in [batch_update_prices]
    and [update_and_notify], on the reference [l] of the record. *)
Definition body_at (l : loc) (price : Z) (rate : float) : M store unit :=
  setitem l (set_current_price price) >>
  setitem l (set_change_rate rate) >>
  let* bp := getitem l buy_price in
  if 0 <? bp then
    let* bp1 := getitem l buy_price in
    let* q := lift (truediv price bp1) in
    setitem l (set_profit_rate ((q - 1) * 100)%float) >>
    let* bp2 := getitem l buy_price in
    let* qty := getitem l quantity in
    setitem l (set_profit_loss ((price - bp2) * qty))
  else ret tt.

(** One entry of a batch as a call of [update_price] whose result is
    dropped. *)
Definition update_step (u : string * Z * float) : M store unit :=
  match u with
  | (ticker, price, rate) => PortfolioEngine.update_price ticker price rate >> ret tt
  end.

(** The entries of a batch that name a record of the store. *)
Definition present_in (s : store) (u : string * Z * float) : bool :=
  dict_mem (fst (fst u)) (portfolio_map s).

(** The fields a price update never writes. *)
Definition same_position (r r' : item) : Prop :=
  ticker_code r' = ticker_code r /\ stock_name r' = stock_name r
  /\ quantity r' = quantity r /\ buy_price r' = buy_price r.

(** The tickers a batch names. *)
Definition tickers (us : list (string * Z * float)) : list string :=
  map (fun u => fst (fst u)) us.

(** [hidden r ra]: [ra] is [r] after some price updates, which the next
    update that returns will hide: it makes the same record of [ra] as of
    [r]. *)
Definition hidden (r ra : item) : Prop :=
  same_position r ra
  /\ forall price rate,
      fst (reprice price rate r) = Ok tt ->
      snd (reprice price rate ra) = snd (reprice price rate r).

(** [updated r price rate r']: [r'] is the record [r] after a price update
    that returned.  It has the position of [r], the given price and change
    rate, and derived fields that follow the formulas on the new price under
    a positive buy price, and are those of [r] otherwise. *)
Definition updated (r : item) (price : Z) (rate : float) (r' : item) : Prop :=
  same_position r r'
  /\ current_price r' = price
  /\ change_rate r' = rate
  /\ (0 < buy_price r ->
      Spec.profitRate (buy_price r) price = Ok (profit_rate r')
      /\ profit_loss r' = Spec.profitLoss (buy_price r) price (quantity r))
  /\ (buy_price r <= 0 ->
      profit_rate r' = profit_rate r /\ profit_loss r' = profit_loss r).

(** ** Histories of a store *)

(** The mutating calls of [ThreadSafePortfolioEngine] (those of
    [PortfolioEngine] and the batch update). *)
Inductive call : Type :=
| AddStock (ticker name : string) (quantity buy_price : Z)
| UpdatePrice (ticker : string) (current_price : Z) (change_rate : float)
| BatchUpdatePrices (updates : list (string * Z * float)).

Definition run_call (c : call) : M store unit :=
  match c with
  | AddStock t n q b => PortfolioEngine.add_stock t n q b
  | UpdatePrice t p r => PortfolioEngine.update_price t p r >> ret tt
  | BatchUpdatePrices us => ThreadSafePortfolioEngine.batch_update_prices us
  end.

(** The stores an engine goes through, from its creation, by calls that
    return. *)
Inductive reachable : store -> Prop :=
| reachable_init : reachable PortfolioEngine.init
| reachable_call s c s' :
    reachable s -> run_call c s = (Ok tt, s') -> reachable s'.

(** The derived fields of a record of a reachable store: either they follow
    the formulas, under a positive buy price, or they are still the zeros
    written by [add_stock], and then the buy price is not positive or the
    price fields are those of [add_stock] too. *)
Definition derived_ok (r : item) : Prop :=
  (0 < buy_price r /\ Spec.consistent r)
  \/ (profit_rate r = 0%float /\ profit_loss r = 0
      /\ (buy_price r <= 0 \/ (current_price r = 0 /\ change_rate r = 0%float))).

(** The invariant of a history: the store is well formed and the derived
    fields of each of its records are [derived_ok]. *)
Definition derived_inv (s : store) : Prop :=
  wf s /\ forall t r, record_of s t = Some r -> derived_ok r.

(** ** Sample stores and observers *)

Module Sample.
Import PortfolioEngine.

(** [add_stock("005930", "Sample", 100, 70000)] on a new engine. *)
Definition one_stock : store :=
  snd (add_stock "005930" "Sample" 100 70000 init).

(** A second position, bought at price 0. *)
Definition two_stocks : store :=
  snd (add_stock "000000" "Free" 10 0 one_stock).

(** A new engine holding one position bought at price 0. *)
Definition free_stock : store :=
  snd (add_stock "000000" "Free" 10 0 init).

(** [x] is within [eps] of [y]. *)
Definition near (x y eps : float) : bool :=
  PrimFloat.ltb (PrimFloat.abs (x - y)) eps.

(** An observer that notes its name in the observers' log. *)
Definition logger (n : string) : DirectMemoryEngine.callback (list string) :=
  fun _ log => (Ok tt, log ++ [n]).


End Sample.

(** ** Stores at the edges *)

Module Edge.
Import PortfolioEngine.

(** A new engine holding one position bought at price 1. *)
Definition penny_stock : store :=
  snd (add_stock "000001" "Penny" 5 1 init).

(** A price whose quotient by 1 is beyond the doubles. *)
Definition huge : Z := 2 ^ 1024.

(** [Sample.one_stock] with a penny position added: two positions with a
    positive buy price. *)
Definition two_priced : store :=
  snd (add_stock "000001" "Penny" 5 1 Sample.one_stock).

(** A position bought at price 0 and one share bought at price 1, the
    first then priced at [huge] by an update, which returns since its buy
    price is not positive: a total cost of 1 under a total value of [huge]. *)
Definition lopsided : store :=
  snd (update_price "000000" huge 0.5%float
         (snd (add_stock "000001" "Penny" 1 1
                 (snd (add_stock "000000" "Free" 1 0 init))))).

End Edge.

(** * Properties *)

(** ** The monad *)

Section MonadFacts.
Context {St A B : Type}.

Lemma bind_Ok (m : M St A) (k : A -> M St B) s a s' :
  m s = (Ok a, s') -> bind m k s = k a s'.
Proof. intros H. unfold bind. now rewrite H. Qed.

Lemma bind_Raise (m : M St A) (k : A -> M St B) s e s' :
  m s = (Raise e, s') -> bind m k s = (Raise e, s').
Proof. intros H. unfold bind. now rewrite H. Qed.

(** A sequence that returns went through both of its parts. *)
Lemma bind_Ok_inv (m : M St A) (k : A -> M St B) s b s'' :
  bind m k s = (Ok b, s'') ->
  exists a s', m s = (Ok a, s') /\ k a s' = (Ok b, s'').
Proof.
  unfold bind. destruct (m s) as [[a|e] s'].
  - intros H. now exists a, s'.
  - discriminate.
Qed.

End MonadFacts.

(** ** Dictionaries *)

Section DictFacts.
Implicit Types (k : string) (v : loc) (d : dict).

Lemma dict_get_In k v d : dict_get k d = Some v -> In (k, v) d.
Proof.
  induction d as [|[k' v'] d IH]; simpl; [discriminate|].
  destruct (String.eqb_spec k k') as [->|Hne].
  - intros [= ->]. now left.
  - intros H. right. auto.
Qed.

Lemma dict_get_None_notin k d : dict_get k d = None -> ~ In k (map fst d).
Proof.
  induction d as [|[k' v'] d IH]; simpl; [tauto|].
  destruct (String.eqb_spec k k') as [->|Hne]; [discriminate|].
  intros H [E|Hin]; [congruence | now apply IH].
Qed.

Lemma dict_get_set_eq k v d : dict_get k (dict_set k v d) = Some v.
Proof.
  induction d as [|[k' v'] d IH]; simpl.
  - now rewrite String.eqb_refl.
  - destruct (String.eqb_spec k k') as [->|Hne]; simpl.
    + now rewrite String.eqb_refl.
    + destruct (String.eqb_spec k k'); [contradiction | exact IH].
Qed.

Lemma dict_get_set_ne k k' v d :
  k <> k' -> dict_get k' (dict_set k v d) = dict_get k' d.
Proof.
  intros Hne. induction d as [|[k0 v0] d IH]; simpl.
  - destruct (String.eqb_spec k' k); [congruence | reflexivity].
  - destruct (String.eqb_spec k k0) as [->|Hk]; simpl.
    + destruct (String.eqb_spec k' k0); [congruence | reflexivity].
    + destruct (String.eqb_spec k' k0); [reflexivity | exact IH].
Qed.

(** [d[k] = v] keeps the keys of [d] and adds [k] when it is new. *)
Lemma dict_set_keys k v d :
  map fst (dict_set k v d)
  = if dict_mem k d then map fst d else map fst d ++ [k].
Proof.
  unfold dict_mem. induction d as [|[k0 v0] d IH]; simpl; [reflexivity|].
  destruct (String.eqb_spec k k0) as [->|Hk]; simpl; [reflexivity|].
  rewrite IH. now destruct (dict_get k d).
Qed.

Lemma dict_set_length k v d :
  length (dict_set k v d)
  = if dict_mem k d then length d else S (length d).
Proof.
  rewrite <- !(length_map fst), dict_set_keys.
  destruct (dict_mem k d); [reflexivity|].
  rewrite length_app. simpl. lia.
Qed.

(** Every value of [dict_set k v d] is [v] or a value of [d]. *)
Lemma dict_set_In k v d k' v' :
  In (k', v') (dict_set k v d) -> v' = v \/ In (k', v') d.
Proof.
  induction d as [|[k0 v0] d IH]; simpl.
  - intros [[= _ <-]|[]]. now left.
  - destruct (String.eqb_spec k k0) as [->|Hk]; simpl.
    + intros [[= <- <-]|H]; auto.
    + intros [E|H]; [auto|]. destruct (IH H); auto.
Qed.

Lemma dict_set_values_NoDup k v d :
  ~ In v (map snd d) -> NoDup (map snd d) -> NoDup (map snd (dict_set k v d)).
Proof.
  induction d as [|[k0 v0] d IH]; simpl; intros Hv Hd.
  - constructor; [apply not_elem_of_nil | constructor].
  - apply NoDup_cons in Hd as [Hv0 Hd].
    destruct (String.eqb_spec k k0) as [->|Hk]; simpl.
    + apply NoDup_cons. split; [|exact Hd].
      rewrite list_elem_of_In. tauto.
    + apply NoDup_cons. split; [|apply IH; tauto].
      rewrite list_elem_of_In, in_map_iff. intros [[k1 v1] [E Hin]].
      simpl in E. subst v1.
      destruct (dict_set_In _ _ _ _ _ Hin) as [->|Hin']; [tauto|].
      apply Hv0, list_elem_of_In, in_map_iff. now exists (k1, v0).
Qed.

Lemma dict_set_keys_NoDup k v d :
  NoDup (map fst d) -> NoDup (map fst (dict_set k v d)).
Proof.
  intros Hd. rewrite dict_set_keys. unfold dict_mem.
  destruct (dict_get k d) eqn:E; [exact Hd|].
  apply NoDup_app. split; [exact Hd|]. split.
  - intros x Hx Hk. apply list_elem_of_In in Hk as [<-|[]].
    apply list_elem_of_In in Hx. now apply (dict_get_None_notin _ _ E).
  - constructor; [apply not_elem_of_nil | constructor].
Qed.

(** Two tickers that name the same object are the same ticker. *)
Lemma dict_get_inj k1 k2 v d :
  NoDup (map snd d) ->
  dict_get k1 d = Some v -> dict_get k2 d = Some v -> k1 = k2.
Proof.
  induction d as [|[k0 v0] d IH]; simpl; [discriminate|].
  intros Hd. apply NoDup_cons in Hd as [Hv0 Hd].
  assert (Hfresh : forall k, dict_get k d = Some v0 -> False).
  { intros k H. apply Hv0, list_elem_of_In, in_map_iff.
    exists (k, v0). split; [reflexivity | now apply dict_get_In]. }
  destruct (String.eqb_spec k1 k0) as [->|H1], (String.eqb_spec k2 k0) as [->|H2].
  - reflexivity.
  - intros [= <-] H. destruct (Hfresh _ H).
  - intros H [= <-]. destruct (Hfresh _ H).
  - now apply IH.
Qed.

End DictFacts.

(** ** The update statements on one record *)

Section UpdateFacts.
Implicit Types (s : store) (l : loc) (r : item).

Lemma getitem_Some {A} l (field : item -> A) s r :
  heap s !! l = Some r -> getitem l field s = (Ok (field r), s).
Proof. intros H. unfold getitem. now rewrite H. Qed.

Lemma setitem_Some l set s r :
  heap s !! l = Some r ->
  setitem l set s = (Ok tt, mk_store (<[l := set r]> (heap s)) (portfolio_map s)).
Proof. intros H. unfold setitem. now rewrite H. Qed.

Lemma heap_insert_lookup (h : list item) l r r' :
  h !! l = Some r -> <[l := r']> h !! l = Some r'.
Proof. intros H. apply list_lookup_insert_eq. eauto using lookup_lt_Some. Qed.

(** Runs the next statement of an update body: a read or a write through
    [l], given the record [H : heap s !! l = Some r] found there at the
    start. *)
Ltac run_statement H :=
  erewrite bind_Ok
    by (first [apply setitem_Some | apply getitem_Some]; cbn [heap];
        first [exact H | eapply heap_insert_lookup; exact H]);
  cbn [heap portfolio_map]; rewrite ?list_insert_insert_eq.

(** Decides the guard [0 <? buy_price] and the division of an update body
    the way [reprice] does. *)
Ltac run_guard :=
  cbn [buy_price quantity set_current_price set_change_rate set_profit_rate];
  match goal with
  | |- context [0 <? buy_price ?r] => destruct (0 <? buy_price r); [|reflexivity]
  end.

Lemma body_at_reprice l price rate s r :
  heap s !! l = Some r ->
  body_at l price rate s
  = (fst (reprice price rate r),
     mk_store (<[l := snd (reprice price rate r)]> (heap s)) (portfolio_map s)).
Proof.
  intros H. unfold body_at, reprice.
  do 3 run_statement H. run_guard. run_statement H.
  cbn [buy_price set_current_price set_change_rate].
  unfold lift at 1. unfold bind at 1.
  destruct (truediv price (buy_price r)) as [q|e]; [|reflexivity].
  do 3 run_statement H.
  erewrite setitem_Some by (cbn [heap]; eapply heap_insert_lookup; exact H).
  cbn [heap portfolio_map]. now rewrite list_insert_insert_eq.
Qed.

Lemma update_price_reprice ticker price rate s :
  PortfolioEngine.update_price ticker price rate s = reprice_at ticker price rate s.
Proof.
  unfold PortfolioEngine.update_price, reprice_at, map_contains, dict_mem.
  unfold bind at 1. unfold gets at 1.
  destruct (dict_get ticker (portfolio_map s)) as [l|] eqn:Hl; [|reflexivity].
  cbn [negb]. unfold bind at 1. unfold map_subscript at 1. rewrite Hl.
  destruct (heap s !! l) as [r|] eqn:Hr.
  - unfold reprice. do 3 run_statement Hr. run_guard.
    unfold bind at 1. unfold bind at 1. unfold lift at 1.
    destruct (truediv price (buy_price r)) as [q|e]; [|reflexivity].
    do 2 run_statement Hr.
    erewrite setitem_Some by (cbn [heap]; eapply heap_insert_lookup; exact Hr).
    cbn [heap portfolio_map]. now rewrite list_insert_insert_eq.
  - unfold bind at 1. unfold setitem at 1. now rewrite Hr.
Qed.

End UpdateFacts.

(** ** The three update methods agree *)

Section Agreement.
Implicit Types (s : store) (u : string * Z * float).

Lemma update_price_absent ticker price rate s :
  dict_get ticker (portfolio_map s) = None ->
  PortfolioEngine.update_price ticker price rate s = (Ok false, s).
Proof. intros H. rewrite update_price_reprice. unfold reprice_at. now rewrite H. Qed.

(** The guarded statements of [batch_update_prices] and
    [update_and_notify] are a call of [update_price]. *)
Lemma guarded_body_update_step ticker price rate s :
  (let* present := map_contains ticker in
   if present then let* it := map_subscript ticker in body_at it price rate
   else ret tt) s
  = update_step (ticker, price, rate) s.
Proof.
  unfold update_step. unfold bind at 3. rewrite update_price_reprice.
  unfold reprice_at, map_contains, dict_mem.
  unfold bind at 1. unfold gets at 1.
  destruct (dict_get ticker (portfolio_map s)) as [l|] eqn:Hl; [|reflexivity].
  unfold bind at 1. unfold map_subscript at 1. rewrite Hl.
  destruct (heap s !! l) as [r|] eqn:Hr.
  - rewrite (body_at_reprice _ _ _ _ _ Hr).
    now destruct (fst (reprice price rate r)) as [[]|e].
  - unfold body_at. unfold bind at 1. unfold setitem at 1. now rewrite Hr.
Qed.

Lemma locked_update_update_step ticker price rate s :
  DirectMemoryEngine.locked_update ticker price rate s
  = update_step (ticker, price, rate) s.
Proof. apply guarded_body_update_step. Qed.

Lemma batch_update_prices_nil s :
  ThreadSafePortfolioEngine.batch_update_prices [] s = (Ok tt, s).
Proof. reflexivity. Qed.

Lemma batch_update_prices_cons u us s :
  ThreadSafePortfolioEngine.batch_update_prices (u :: us) s
  = (update_step u >> ThreadSafePortfolioEngine.batch_update_prices us) s.
Proof.
  destruct u as [[ticker price] rate].
  unfold ThreadSafePortfolioEngine.batch_update_prices at 1.
  cbn [for_each]. unfold bind at 1.
  change (let* present := map_contains ticker in _)
    with (let* present := map_contains ticker in
          if present then let* it := map_subscript ticker in body_at it price rate
          else ret tt).
  rewrite guarded_body_update_step. reflexivity.
Qed.

Lemma batch_update_prices_for_each us s :
  ThreadSafePortfolioEngine.batch_update_prices us s = for_each us update_step s.
Proof.
  revert s. induction us as [|u us IH]; intros s; [reflexivity|].
  rewrite batch_update_prices_cons. cbn [for_each]. unfold bind.
  destruct (update_step u s) as [[[]|e] s']; [apply IH | reflexivity].
Qed.

End Agreement.

(** ** What an update leaves alone *)

Section Frame.
Implicit Types (s : store) (l : loc) (r : item) (u : string * Z * float).

Lemma for_each_inv {St A} (body : A -> M St unit) (P : St -> Prop) xs :
  (forall x (a : St) o (b : St), In x xs -> P a -> body x a = (o, b) -> P b) ->
  forall (a : St) o (b : St), P a -> for_each xs body a = (o, b) -> P b.
Proof.
  induction xs as [|x xs IH]; intros Hstep a o b HP; cbn [for_each].
  - intros [= _ <-]. exact HP.
  - unfold bind. destruct (body x a) as [[[]|e] a1] eqn:Hx.
    + apply IH; [|eapply Hstep; [now left | exact HP | exact Hx]].
      intros x' c o' c' Hin. apply Hstep. now right.
    + intros [= _ <-]. eapply Hstep; [now left | exact HP | exact Hx].
Qed.

Lemma reprice_same_position price rate r :
  same_position r (snd (reprice price rate r)).
Proof.
  unfold reprice, same_position.
  destruct (0 <? buy_price r); [destruct (truediv _ _)|]; cbn; auto.
Qed.

Lemma reprice_price_fields price rate r :
  current_price (snd (reprice price rate r)) = price
  /\ change_rate (snd (reprice price rate r)) = rate.
Proof.
  unfold reprice.
  destruct (0 <? buy_price r); [destruct (truediv _ _)|]; cbn; auto.
Qed.

(** The store after an entry, whatever the outcome of the entry. *)
Lemma update_step_store ticker price rate s o s' :
  update_step (ticker, price, rate) s = (o, s') ->
  s' = match dict_get ticker (portfolio_map s) with
       | Some l =>
           match heap s !! l with
           | Some r => mk_store (<[l := snd (reprice price rate r)]> (heap s))
                                (portfolio_map s)
           | None => s
           end
       | None => s
       end.
Proof.
  unfold update_step, bind. rewrite update_price_reprice. unfold reprice_at.
  destruct (dict_get ticker (portfolio_map s)) as [l|]; [|now intros [= _ <-]].
  destruct (heap s !! l) as [r|]; [|now intros [= _ <-]].
  destruct (fst (reprice price rate r)); now intros [= _ <-].
Qed.

Lemma update_step_map u s o s' :
  update_step u s = (o, s') -> portfolio_map s' = portfolio_map s.
Proof.
  destruct u as [[ticker price] rate]. intros H.
  rewrite (update_step_store _ _ _ _ _ _ H).
  destruct (dict_get _ _); [destruct (heap s !! _)|]; reflexivity.
Qed.

Lemma update_step_length u s o s' :
  update_step u s = (o, s') -> length (heap s') = length (heap s).
Proof.
  destruct u as [[ticker price] rate]. intros H.
  rewrite (update_step_store _ _ _ _ _ _ H).
  destruct (dict_get _ _); [destruct (heap s !! _)|]; cbn [heap];
    rewrite ?length_insert; reflexivity.
Qed.

(** An entry writes to no object but the one its ticker names. *)
Lemma update_step_other u s o s' l :
  update_step u s = (o, s') ->
  dict_get (fst (fst u)) (portfolio_map s) <> Some l ->
  heap s' !! l = heap s !! l.
Proof.
  destruct u as [[ticker price] rate]. cbn [fst]. intros H Hl.
  rewrite (update_step_store _ _ _ _ _ _ H).
  destruct (dict_get _ _) as [l0|]; [destruct (heap s !! l0)|]; cbn [heap];
    try reflexivity.
  apply list_lookup_insert_ne. congruence.
Qed.

(** An entry keeps the identity, the quantity and the buy price of every
    object. *)
Lemma update_step_same_position u s o s' l r :
  update_step u s = (o, s') -> heap s !! l = Some r ->
  exists r', heap s' !! l = Some r' /\ same_position r r'.
Proof.
  destruct u as [[ticker price] rate]. intros H Hr.
  rewrite (update_step_store _ _ _ _ _ _ H).
  assert (Hsame : exists r', heap s !! l = Some r' /\ same_position r r')
    by (exists r; unfold same_position; auto).
  destruct (dict_get _ _) as [l0|]; [|exact Hsame].
  destruct (heap s !! l0) as [r0|] eqn:Hr0; [|exact Hsame]. cbn [heap].
  destruct (decide (l0 = l)) as [->|Hne].
  - rewrite (heap_insert_lookup _ _ _ _ Hr). eexists. split; [reflexivity|].
    assert (r0 = r) as -> by congruence. apply reprice_same_position.
  - rewrite list_lookup_insert_ne by exact Hne. exact Hsame.
Qed.

Lemma same_position_trans r1 r2 r3 :
  same_position r1 r2 -> same_position r2 r3 -> same_position r1 r3.
Proof. unfold same_position. intuition congruence. Qed.

Lemma batch_map us s o s' :
  ThreadSafePortfolioEngine.batch_update_prices us s = (o, s') ->
  portfolio_map s' = portfolio_map s.
Proof.
  rewrite batch_update_prices_for_each.
  apply (for_each_inv update_step (fun t => portfolio_map t = portfolio_map s));
    [|reflexivity].
  intros u t o' t' _ Ht Hu. now rewrite (update_step_map _ _ _ _ Hu).
Qed.

Lemma batch_other us s o s' l :
  ThreadSafePortfolioEngine.batch_update_prices us s = (o, s') ->
  (forall u, In u us -> dict_get (fst (fst u)) (portfolio_map s) <> Some l) ->
  heap s' !! l = heap s !! l.
Proof.
  rewrite batch_update_prices_for_each. intros H Hl.
  enough (portfolio_map s' = portfolio_map s /\ heap s' !! l = heap s !! l) by tauto.
  revert H.
  apply (for_each_inv update_step
           (fun t => portfolio_map t = portfolio_map s /\ heap t !! l = heap s !! l));
    [|split; reflexivity].
  intros u t o' t' Hin [Hm Hh] Hu. split.
  - now rewrite (update_step_map _ _ _ _ Hu).
  - rewrite <- Hh. eapply update_step_other; [exact Hu|].
    rewrite Hm. now apply Hl.
Qed.

Lemma batch_same_position us s o s' l r :
  ThreadSafePortfolioEngine.batch_update_prices us s = (o, s') ->
  heap s !! l = Some r ->
  exists r', heap s' !! l = Some r' /\ same_position r r'.
Proof.
  rewrite batch_update_prices_for_each. intros H Hr. revert H.
  apply (for_each_inv update_step
           (fun t => exists r', heap t !! l = Some r' /\ same_position r r')).
  - intros u t o' t' _ [r1 [H1 S1]] Hu.
    destruct (update_step_same_position _ _ _ _ _ _ Hu H1) as [r2 [H2 S2]].
    exists r2. split; [exact H2 | eapply same_position_trans; eassumption].
  - exists r. unfold same_position. auto.
Qed.

(** Under [wf], the record of a ticker lives apart from the records of the
    other tickers. *)
Lemma wf_other_ticker s t t' l :
  wf s -> t <> t' -> dict_get t (portfolio_map s) = Some l ->
  dict_get t' (portfolio_map s) <> Some l.
Proof.
  intros (_ & Hnd & _) Hne Ht Ht'. apply Hne.
  eapply dict_get_inj; eassumption.
Qed.

Lemma wf_live s t l :
  wf s -> dict_get t (portfolio_map s) = Some l -> exists r, heap s !! l = Some r.
Proof.
  intros (_ & _ & Hlive) Ht. apply dict_get_In in Ht.
  rewrite Forall_forall in Hlive. apply list_elem_of_In in Ht.
  specialize (Hlive _ Ht). cbn in Hlive.
  apply lookup_lt_is_Some_2 in Hlive. exact Hlive.
Qed.

End Frame.

(** ** Well-formed stores *)

Section WellFormed.
Import PortfolioEngine.
Implicit Types (s : store).

Lemma add_stock_store ticker name qty cost s :
  add_stock ticker name qty cost s
  = (Ok tt, mk_store (heap s ++ [mk_item ticker name qty cost 0 0%float 0%float 0])
                     (dict_set ticker (length (heap s)) (portfolio_map s))).
Proof. reflexivity. Qed.

Lemma wf_init : wf init.
Proof. unfold wf, init; cbn. repeat split; constructor. Qed.

Lemma wf_add_stock ticker name qty cost s :
  wf s -> wf (snd (add_stock ticker name qty cost s)).
Proof.
  intros (Hk & Hv & Hlive). rewrite add_stock_store. unfold wf. cbn.
  rewrite Forall_forall in Hlive.
  assert (Hfresh : ~ In (length (heap s)) (map snd (portfolio_map s))).
  { rewrite in_map_iff. intros [kv [E Hin]].
    apply list_elem_of_In, Hlive in Hin. cbn beta in Hin. lia. }
  split; [now apply dict_set_keys_NoDup|].
  split; [now apply dict_set_values_NoDup|].
  apply Forall_forall. intros [k v] Hin. apply list_elem_of_In in Hin. cbn.
  rewrite length_app. cbn.
  destruct (dict_set_In _ _ _ _ _ Hin) as [->|Hold]; [lia|].
  apply list_elem_of_In, Hlive in Hold. cbn in Hold. lia.
Qed.

Lemma wf_same_shape s s' :
  portfolio_map s' = portfolio_map s -> length (heap s') = length (heap s) ->
  wf s -> wf s'.
Proof. unfold wf. intros -> ->. tauto. Qed.

Lemma wf_update_step u s o s' : update_step u s = (o, s') -> wf s -> wf s'.
Proof.
  intros H. apply wf_same_shape;
    [eapply update_step_map | eapply update_step_length]; exact H.
Qed.

Lemma wf_batch us s o s' :
  ThreadSafePortfolioEngine.batch_update_prices us s = (o, s') -> wf s -> wf s'.
Proof.
  rewrite batch_update_prices_for_each. intros H Hwf. revert H.
  apply (for_each_inv update_step wf); [|exact Hwf].
  intros u a o' b _ Ha Hu. eapply wf_update_step; eassumption.
Qed.

Lemma wf_run_call c s o s' : run_call c s = (o, s') -> wf s -> wf s'.
Proof.
  destruct c as [t n q b|t p r|us]; cbn [run_call].
  - intros H Hwf. pose proof (wf_add_stock t n q b s Hwf) as H'.
    now rewrite H in H'.
  - apply (wf_update_step (t, p, r)).
  - apply wf_batch.
Qed.

Lemma reachable_wf s : reachable s -> wf s.
Proof.
  induction 1 as [|s c s' _ IH Hc]; [apply wf_init|].
  eapply wf_run_call; eassumption.
Qed.

End WellFormed.

(** ** Insert, then update *)

Section AddThenUpdate.
Import PortfolioEngine.

(** The store after [add_stock] then [update_price] on the same ticker. *)
Lemma update_price_after_add_stock ticker name qty cost price rate s :
  update_price ticker price rate (snd (add_stock ticker name qty cost s))
  = (match fst (reprice price rate (mk_item ticker name qty cost 0 0%float 0%float 0)) with
     | Ok _ => Ok true
     | Raise e => Raise e
     end,
     mk_store
       (heap s ++ [snd (reprice price rate (mk_item ticker name qty cost 0 0%float 0%float 0))])
       (dict_set ticker (length (heap s)) (portfolio_map s))).
Proof.
  rewrite add_stock_store, update_price_reprice. unfold reprice_at; cbn [snd].
  cbn [portfolio_map heap]. rewrite dict_get_set_eq.
  rewrite list_lookup_middle by reflexivity.
  f_equal. f_equal.
  rewrite <- (Nat.add_0_r (length (heap s))).
  rewrite insert_app_r. reflexivity.
Qed.

End AddThenUpdate.

(** ** The summary scan *)

Section SummaryFacts.
Import PortfolioEngine.
Implicit Types (s : store) (recs : list item).

Lemma deref_all_length s ls recs :
  deref_all s ls = Some recs -> length recs = length ls.
Proof.
  revert recs. induction ls as [|l ls IH]; cbn [deref_all]; intros recs.
  - now intros [= <-].
  - destruct (deref s l); [|discriminate].
    destruct (deref_all s ls) as [rs|]; [|discriminate].
    intros [= <-]. cbn. f_equal. now apply IH.
Qed.

(** The loop adds, to each running total, the sum of its column. *)
Lemma scan_totals s items recs a b c :
  deref_all s (map snd items) = Some recs ->
  scan items (a, b, c) s
  = (Ok (a + Spec.total Spec.cost recs,
         b + Spec.total Spec.value recs,
         c + Spec.total (fun r => Spec.value r - Spec.cost r) recs), s).
Proof.
  revert recs a b c.
  induction items as [|[t l] items IH]; cbn [map snd deref_all]; intros recs a b c.
  - intros [= <-]. cbn. unfold ret. now rewrite !Z.add_0_r.
  - unfold deref. destruct (heap s !! l) as [r|] eqn:Hr; [|discriminate].
    destruct (deref_all s (map snd items)) as [rs|] eqn:Hrs; [|discriminate].
    intros [= <-]. cbn [scan].
    rewrite !(bind_Ok _ _ _ _ _ (getitem_Some _ _ _ _ Hr)).
    rewrite (IH rs) by reflexivity.
    cbn [Spec.total fold_right]. now rewrite !Z.add_assoc.
Qed.

(** The third total is the difference of the first two. *)
Lemma total_profit_difference recs :
  Spec.total (fun r => Spec.value r - Spec.cost r) recs
  = Spec.total Spec.value recs - Spec.total Spec.cost recs.
Proof.
  unfold Spec.total. induction recs as [|r recs IH]; cbn [fold_right]; lia.
Qed.

Lemma get_portfolio_summary_records s recs :
  records s = Some recs ->
  get_portfolio_summary s
  = (match Spec.totalReturn (Spec.total Spec.cost recs) (Spec.total Spec.value recs) with
     | Ok ret =>
         Ok (Summary.mk (Spec.total Spec.cost recs) (Spec.total Spec.value recs)
               (Spec.total Spec.value recs - Spec.total Spec.cost recs)
               ret (length recs))
     | Raise e => Raise e
     end, s).
Proof.
  unfold records. intros H. unfold get_portfolio_summary.
  unfold bind at 1. unfold gets at 1.
  rewrite (bind_Ok _ _ _ _ _ (scan_totals _ _ _ 0 0 0 H)).
  rewrite !Z.add_0_l, total_profit_difference. unfold Spec.totalReturn.
  rewrite (deref_all_length _ _ _ H), length_map.
  destruct (0 <? Spec.total Spec.cost recs); [|reflexivity].
  unfold bind at 1. unfold bind at 1. unfold lift.
  destruct (truediv _ _); reflexivity.
Qed.

End SummaryFacts.

(** ** The derived fields along a history *)

Section DerivedFields.
Import PortfolioEngine.
Implicit Types (s : store) (l : loc) (r : item) (u : string * Z * float).

(** A loop that returns went through entries that all returned. *)
Lemma for_each_inv_Ok {St A} (body : A -> M St unit) (P : St -> Prop) xs :
  (forall x (a b : St), In x xs -> P a -> body x a = (Ok tt, b) -> P b) ->
  forall (a b : St), P a -> for_each xs body a = (Ok tt, b) -> P b.
Proof.
  induction xs as [|x xs IH]; intros Hstep a b HP; cbn [for_each].
  - intros [= <-]. exact HP.
  - intros H. apply bind_Ok_inv in H as ([] & a1 & Hx & Hrest).
    eapply IH; [|eapply Hstep; [now left | exact HP | exact Hx] | exact Hrest].
    intros x' c c' Hin. apply Hstep. now right.
Qed.

(** An entry returns exactly when the statements on its record do. *)
Lemma update_step_outcome ticker price rate s o s' l r :
  update_step (ticker, price, rate) s = (o, s') ->
  dict_get ticker (portfolio_map s) = Some l -> heap s !! l = Some r ->
  o = fst (reprice price rate r).
Proof.
  unfold update_step, bind. rewrite update_price_reprice. unfold reprice_at.
  intros H Hl Hr. rewrite Hl, Hr in H.
  destruct (fst (reprice price rate r)) as [[]|e]; now injection H as <- _.
Qed.

Lemma reprice_derived_ok price rate r :
  fst (reprice price rate r) = Ok tt ->
  derived_ok r -> derived_ok (snd (reprice price rate r)).
Proof.
  unfold reprice, derived_ok, Spec.consistent, Spec.profitRate, Spec.profitLoss.
  destruct (Z.ltb_spec 0 (buy_price r)) as [Hpos|Hle].
  - destruct (truediv price (buy_price r)) as [q|e] eqn:Hq; [|discriminate].
    intros _ _. left. cbn. rewrite Hq.
    destruct (Z.leb_spec (buy_price r) 0); [lia|]. auto.
  - intros _ [[Hpos _]|(Hpr & Hpl & _)]; [lia|]. right. cbn. auto.
Qed.

Lemma derived_inv_init : derived_inv init.
Proof. split; [apply wf_init|]. intros t r. discriminate. Qed.

Lemma derived_inv_add_stock ticker name qty cost s :
  derived_inv s -> derived_inv (snd (add_stock ticker name qty cost s)).
Proof.
  intros [Hwf Hok]. split; [now apply wf_add_stock|].
  intros t r. rewrite add_stock_store. unfold record_of, deref. cbn.
  destruct (String.eqb_spec ticker t) as [<-|Hne].
  - rewrite dict_get_set_eq, list_lookup_middle by reflexivity.
    intros [= <-]. right. cbn. auto.
  - rewrite dict_get_set_ne by exact Hne.
    specialize (Hok t r). unfold record_of, deref in Hok.
    destruct (dict_get t (portfolio_map s)) as [l|] eqn:Hl; [|discriminate].
    destruct (wf_live _ _ _ Hwf Hl) as [r0 Hr0].
    rewrite (lookup_app_l_Some _ _ _ _ Hr0). now rewrite Hr0 in Hok.
Qed.

Lemma derived_inv_update_step u s s' :
  update_step u s = (Ok tt, s') -> derived_inv s -> derived_inv s'.
Proof.
  destruct u as [[ticker price] rate]. intros Hu [Hwf Hok].
  split; [eapply wf_update_step; eassumption|].
  intros t r.
  pose proof (update_step_store _ _ _ _ _ _ Hu) as Hs'.
  pose proof (fun l r => update_step_outcome _ _ _ _ _ _ l r Hu) as Ho.
  destruct (dict_get ticker (portfolio_map s)) as [l0|] eqn:Hl0;
    [|subst s'; apply Hok].
  destruct (heap s !! l0) as [r0|] eqn:Hr0; [|subst s'; apply Hok].
  specialize (Ho l0 r0 eq_refl Hr0). subst s'.
  unfold record_of, deref. cbn [portfolio_map heap].
  destruct (dict_get t (portfolio_map s)) as [l|] eqn:Hl; [|discriminate].
  destruct (decide (l0 = l)) as [->|Hne].
  - rewrite (heap_insert_lookup _ _ _ _ Hr0). intros [= <-].
    apply reprice_derived_ok; [now symmetry|].
    apply (Hok t). unfold record_of, deref. now rewrite Hl.
  - rewrite list_lookup_insert_ne by exact Hne. intros Hr.
    apply (Hok t). unfold record_of, deref. now rewrite Hl.
Qed.

Lemma derived_inv_run_call c s s' :
  run_call c s = (Ok tt, s') -> derived_inv s -> derived_inv s'.
Proof.
  destruct c as [t n q b|t p r|us]; cbn [run_call].
  - intros H Hinv. pose proof (derived_inv_add_stock t n q b s Hinv) as H'.
    now rewrite H in H'.
  - apply (derived_inv_update_step (t, p, r)).
  - rewrite batch_update_prices_for_each. intros H Hinv. revert H.
    apply (for_each_inv_Ok update_step derived_inv); [|exact Hinv].
    intros u a b _ Ha Hu. eapply derived_inv_update_step; eassumption.
Qed.

Lemma reachable_derived_inv s : reachable s -> derived_inv s.
Proof.
  induction 1 as [|s c s' _ IH Hc]; [apply derived_inv_init|].
  eapply derived_inv_run_call; eassumption.
Qed.

End DerivedFields.

(** ** Batches *)

Section BatchFacts.
Import PortfolioEngine ThreadSafePortfolioEngine.
Implicit Types (s : store) (l : loc) (r : item) (u : string * Z * float).

Lemma for_each_app {St A} (body : A -> M St unit) xs ys (a : St) :
  for_each (xs ++ ys) body a = (for_each xs body >> for_each ys body) a.
Proof.
  revert a. induction xs as [|x xs IH]; intros a; [reflexivity|].
  cbn [app for_each]. unfold bind.
  destruct (body x a) as [[[]|e] a1]; [|reflexivity].
  rewrite IH. reflexivity.
Qed.

Lemma update_step_absent u s :
  present_in s u = false -> update_step u s = (Ok tt, s).
Proof.
  destruct u as [[ticker price] rate]. unfold present_in, dict_mem. cbn [fst].
  intros H. unfold update_step, bind. rewrite update_price_absent; [reflexivity|].
  now destruct (dict_get ticker (portfolio_map s)).
Qed.

(** The entries that name no record can be dropped from a batch. *)
Lemma for_each_skip_absent us s a :
  portfolio_map a = portfolio_map s ->
  for_each us update_step a = for_each (List.filter (present_in s) us) update_step a.
Proof.
  revert a. induction us as [|u us IH]; intros a Ha; [reflexivity|].
  cbn [List.filter for_each].
  destruct (present_in s u) eqn:Hu; cbn [for_each]; unfold bind at 1.
  - unfold bind at 1.
    destruct (update_step u a) as [[[]|e] a1] eqn:Ha1; [|reflexivity].
    apply IH. rewrite <- Ha. eapply update_step_map. exact Ha1.
  - rewrite update_step_absent; [now apply IH|].
    unfold present_in in *. now rewrite Ha.
Qed.

Lemma batch_skip_absent us s :
  batch_update_prices us s = batch_update_prices (List.filter (present_in s) us) s.
Proof. rewrite !batch_update_prices_for_each. now apply for_each_skip_absent. Qed.

(** Whether the statements on a record return depends on its buy price
    alone. *)
Lemma reprice_outcome_same_position price rate r r' :
  same_position r r' -> fst (reprice price rate r') = fst (reprice price rate r).
Proof.
  intros (_ & _ & _ & Hb). unfold reprice. rewrite Hb.
  destruct (0 <? buy_price r); [destruct (truediv _ _)|]; reflexivity.
Qed.

(** An update that returns hides the updates made before it. *)
Lemma reprice_absorb price rate price0 rate0 r :
  fst (reprice price rate r) = Ok tt ->
  snd (reprice price rate (snd (reprice price0 rate0 r)))
  = snd (reprice price rate r).
Proof.
  destruct r as [code name qty cost cp cr pr pl]. unfold reprice.
  cbn [buy_price quantity set_change_rate set_current_price].
  destruct (0 <? cost) eqn:Hpos.
  - destruct (truediv price cost) as [q|e] eqn:Hq; [|discriminate]. intros _.
    destruct (truediv price0 cost); cbn; now rewrite Hpos, Hq.
  - intros _. cbn. now rewrite Hpos.
Qed.

Lemma hidden_refl r : hidden r r.
Proof. split; [unfold same_position; auto | auto]. Qed.

Lemma hidden_reprice price0 rate0 r ra :
  hidden r ra -> hidden r (snd (reprice price0 rate0 ra)).
Proof.
  intros [Hsame Hlast]. split.
  - eapply same_position_trans; [exact Hsame | apply reprice_same_position].
  - intros price rate Hok. rewrite reprice_absorb; [now apply Hlast|].
    now rewrite (reprice_outcome_same_position _ _ _ _ Hsame).
Qed.

Lemma for_each_hidden us s o s' l r :
  for_each us update_step s = (o, s') -> heap s !! l = Some r ->
  exists ra, heap s' !! l = Some ra /\ hidden r ra.
Proof.
  intros H Hr. revert H.
  apply (for_each_inv update_step (fun a => exists ra, heap a !! l = Some ra /\ hidden r ra)).
  - intros [[t0 p0] c0] a o' b _ [ra [Hra Hh]] Hu.
    rewrite (update_step_store _ _ _ _ _ _ Hu).
    destruct (dict_get t0 (portfolio_map a)) as [l0|]; [|now exists ra].
    destruct (heap a !! l0) as [r0|] eqn:Hr0; [|now exists ra]. cbn [heap].
    destruct (decide (l0 = l)) as [->|Hne].
    + rewrite (heap_insert_lookup _ _ _ _ Hra). eexists. split; [reflexivity|].
      assert (r0 = ra) as -> by congruence. now apply hidden_reprice.
    + rewrite list_lookup_insert_ne by exact Hne. now exists ra.
  - exists r. split; [exact Hr | apply hidden_refl].
Qed.

(** After a batch that returns, the record named by the last entry for a
    ticker is what [update_price] alone, with that entry, makes of it. *)
Lemma batch_last_entry pre ticker price rate post s s' l :
  wf s ->
  batch_update_prices (pre ++ (ticker, price, rate) :: post) s = (Ok tt, s') ->
  ~ In ticker (tickers post) ->
  dict_get ticker (portfolio_map s) = Some l ->
  exists s1, update_price ticker price rate s = (Ok true, s1)
             /\ deref s' l = deref s1 l.
Proof.
  intros Hwf H Hlast Hl. rewrite batch_update_prices_for_each, for_each_app in H.
  apply bind_Ok_inv in H as ([] & a & Hpre & H). cbn [for_each] in H.
  apply bind_Ok_inv in H as ([] & b & Hu & Hpost).
  destruct (wf_live _ _ _ Hwf Hl) as [r Hr].
  destruct (for_each_hidden _ _ _ _ _ _ Hpre Hr) as (ra & Hra & Hsame & Hhid).
  assert (Hma : portfolio_map a = portfolio_map s).
  { rewrite <- batch_update_prices_for_each in Hpre. eapply batch_map. exact Hpre. }
  pose proof (update_step_store _ _ _ _ _ _ Hu) as Hb.
  pose proof (update_step_outcome _ _ _ _ _ _ l ra Hu) as Ho.
  rewrite Hma, Hl in Hb, Ho. rewrite Hra in Hb. specialize (Ho eq_refl Hra).
  rewrite (reprice_outcome_same_position _ _ _ _ Hsame) in Ho. symmetry in Ho.
  rewrite (Hhid _ _ Ho) in Hb. subst b.
  rewrite update_price_reprice. unfold reprice_at. rewrite Hl, Hr, Ho.
  eexists. split; [reflexivity|]. unfold deref. cbn [heap].
  rewrite (heap_insert_lookup _ _ _ _ Hr).
  rewrite <- batch_update_prices_for_each in Hpost.
  rewrite (batch_other _ _ _ _ l Hpost).
  - cbn [heap]. now rewrite (heap_insert_lookup _ _ _ _ Hra).
  - cbn [portfolio_map]. intros u Hin Hul. apply Hlast. unfold tickers.
    apply in_map_iff. exists u. split; [|exact Hin].
    destruct Hwf as (_ & Hnd & _). eapply dict_get_inj; eassumption.
Qed.

(** A batch leaves alone the record of every ticker it does not name. *)
Lemma batch_record_of_other us s o s' t :
  wf s ->
  batch_update_prices us s = (o, s') ->
  ~ In t (tickers us) ->
  record_of s' t = record_of s t.
Proof.
  intros Hwf H Ht. unfold record_of, deref.
  rewrite (batch_map _ _ _ _ H).
  destruct (dict_get t (portfolio_map s)) as [l|] eqn:Hl; [|reflexivity].
  apply (batch_other _ _ _ _ l H). intros u Hin.
  apply (wf_other_ticker s t (fst (fst u)) l Hwf); [|exact Hl].
  intros ->. apply Ht. unfold tickers. apply in_map_iff. now exists u.
Qed.

(** What a returning update makes of a record. *)
Lemma reprice_updated price rate r :
  fst (reprice price rate r) = Ok tt ->
  updated r price rate (snd (reprice price rate r)).
Proof.
  intros Hok. split; [apply reprice_same_position|].
  revert Hok. unfold reprice, Spec.profitRate, Spec.profitLoss.
  destruct (Z.ltb_spec 0 (buy_price r)) as [Hpos|Hle].
  - destruct (truediv price (buy_price r)) as [q|e]; [|discriminate]. intros _.
    cbn. destruct (Z.leb_spec (buy_price r) 0); [lia|].
    repeat split; try reflexivity; lia.
  - intros _. cbn. repeat split; try reflexivity; lia.
Qed.

(** After a batch that returns, the record named by the last entry for a
    ticker is the record it was before the batch, updated with that entry. *)
Lemma batch_last_entry_updated pre ticker price rate post s s' l r :
  wf s ->
  batch_update_prices (pre ++ (ticker, price, rate) :: post) s = (Ok tt, s') ->
  ~ In ticker (tickers post) ->
  dict_get ticker (portfolio_map s) = Some l ->
  heap s !! l = Some r ->
  exists r',
    deref s' l = Some r'
    /\ updated r price rate r'
    /\ update_price ticker price rate s
       = (Ok true, mk_store (<[l := r']> (heap s)) (portfolio_map s)).
Proof.
  intros Hwf H Hlast Hl Hr.
  destruct (batch_last_entry _ _ _ _ _ _ _ _ Hwf H Hlast Hl) as (s1 & Hu & Hd).
  rewrite update_price_reprice in Hu. unfold reprice_at in Hu.
  rewrite Hl, Hr in Hu.
  destruct (fst (reprice price rate r)) as [[]|e] eqn:Hf; [|discriminate].
  injection Hu as <-. exists (snd (reprice price rate r)).
  split; [|split].
  - rewrite Hd. unfold deref. cbn [heap]. eapply heap_insert_lookup. exact Hr.
  - now apply reprice_updated.
  - rewrite update_price_reprice. unfold reprice_at. now rewrite Hl, Hr, Hf.
Qed.

End BatchFacts.

(** ** Notification *)

Section ObserverFacts.
Import DirectMemoryEngine.
Context {Env : Type}.
Implicit Types (w : world Env) (st : store) (env : Env) (cbs : list (callback Env)).

Lemma update_and_notify_unfold ticker price rate w :
  update_and_notify ticker price rate w
  = match locked_update ticker price rate (engine w) with
    | (Ok _, st') =>
        for_each (update_callbacks w) invoke
          (mk_world st' (update_callbacks w) (outside w))
    | (Raise e, st') => (Raise e, mk_world st' (update_callbacks w) (outside w))
    end.
Proof.
  unfold update_and_notify, on_store. unfold bind at 1.
  destruct (locked_update ticker price rate (engine w)) as [[[]|e] st']; reflexivity.
Qed.




End ObserverFacts.

(** * The claims *)

Section Claims.
Import PortfolioEngine.

Local Set Warnings "-inexact-float".

(** C1, as stated, fails: on a fresh engine,
    [add_stock("000001", "Penny", 5, 1)] then
    [update_price("000001", 2 ** 1024, 0.5)] does not return [True]: the
    quotient of the price by the buy price is beyond the doubles and the
    call raises [OverflowError]. *)
Lemma C1_overflow_counterexample :
  0 < 1
  /\ exists s2,
       update_price "000001" (2 ^ 1024) 0.5%float
         (snd (add_stock "000001" "Penny" 5 1 init))
       = (Raise OverflowError, s2).
Proof. split; [lia|]. eexists. vm_compute. reflexivity. Qed.

(** C1, amended.  On any store, and so on a fresh one, [add_stock] with a
    positive buy price followed by [update_price] on the same ticker, with a
    price whose quotient by the buy price is a double (the division does not
    raise [OverflowError]), returns [True], and [get_stock] then leads to a
    record holding the given price and change rate, the profit rate
    [(price / cost - 1) * 100] and the profit/loss
    [(price - cost) * quantity].  On a fresh engine,
    [add_stock("005930", "Sample", 100, 70000)] then
    [update_price("005930", 75000, 2.5)] gives a profit/loss of 500000 and
    a profit rate within 0.000001 of 7.142857. *)
Theorem C1_update_after_insert s ticker name qty cost price rate pr :
  0 < cost ->
  Spec.profitRate cost price = Ok pr ->
  (exists s2 l,
      update_price ticker price rate (snd (add_stock ticker name qty cost s))
      = (Ok true, s2)
      /\ get_stock ticker s2 = (Ok (Some l), s2)
      /\ deref s2 l
         = Some (mk_item ticker name qty cost price rate pr
                         (Spec.profitLoss cost price qty)))
  /\ (exists s2 l r,
         update_price "005930" 75000 2.5%float
           (snd (add_stock "005930" "Sample" 100 70000 init))
         = (Ok true, s2)
         /\ get_stock "005930" s2 = (Ok (Some l), s2)
         /\ deref s2 l = Some r
         /\ profit_loss r = 500000
         /\ Sample.near (profit_rate r) 7.142857%float 0.000001%float = true).
Proof.
  intros Hcost Hpr. split.
  - rewrite update_price_after_add_stock.
    unfold Spec.profitRate in Hpr. unfold reprice. cbn [buy_price quantity].
    destruct (Z.ltb_spec 0 cost) as [_|]; [|lia].
    destruct (Z.leb_spec cost 0) as [|_]; [lia|].
    destruct (truediv price cost) as [q|e]; [|discriminate].
    injection Hpr as <-. cbn [fst snd].
    eexists _, (length (heap s)). split; [reflexivity|].
    unfold get_stock, gets, deref. cbn [portfolio_map heap].
    rewrite dict_get_set_eq. split; [reflexivity|].
    now rewrite list_lookup_middle.
  - eexists _, 0%nat, _. vm_compute. repeat split; reflexivity.
Qed.

Lemma C1_update_after_insert_witness :
  0 < 70000
  /\ Spec.profitRate 70000 75000 = Ok ((1.0714285714285714 - 1) * 100)%float
  /\ exists s2 l,
       update_price "005930" 75000 2.5%float
         (snd (add_stock "005930" "Sample" 100 70000 init))
       = (Ok true, s2)
       /\ get_stock "005930" s2 = (Ok (Some l), s2)
       /\ deref s2 l
          = Some (mk_item "005930" "Sample" 100 70000 75000 2.5%float
                          ((1.0714285714285714 - 1) * 100)%float 500000).
Proof.
  split; [lia|]. split; [vm_compute; reflexivity|].
  apply (C1_update_after_insert init "005930" "Sample" 100 70000 75000
           2.5%float ((1.0714285714285714 - 1) * 100)%float).
  - lia.
  - vm_compute. reflexivity.
Defined.

(** C2, as stated, fails: on a fresh engine,
    [add_stock("000000", "Free", 10, 0)] then
    [update_price("000000", 100, 1.5)] leaves the profit/loss at 0, not at
    [100 * 10]. *)
Lemma C2_zero_cost_counterexample :
  exists s2 l r,
    update_price "000000" 100 1.5%float (snd (add_stock "000000" "Free" 10 0 init))
    = (Ok true, s2)
    /\ get_stock "000000" s2 = (Ok (Some l), s2)
    /\ deref s2 l = Some r
    /\ buy_price r = 0
    /\ profit_loss r = 0
    /\ profit_loss r <> current_price r * quantity r.
Proof.
  eexists _, 0%nat, _. vm_compute. repeat split; try reflexivity. discriminate.
Qed.

(** C2, amended.  For a record inserted with a buy price of 0, on any
    store, [update_price] returns [True] and writes the price and the
    change rate only: the profit rate and the profit/loss keep the zeros of
    [add_stock], the derived fields being recomputed under
    [buy_price > 0] alone. *)
Theorem C2_update_zero_cost s ticker name qty price rate :
  exists s2 l,
    update_price ticker price rate (snd (add_stock ticker name qty 0 s))
    = (Ok true, s2)
    /\ get_stock ticker s2 = (Ok (Some l), s2)
    /\ deref s2 l = Some (mk_item ticker name qty 0 price rate 0%float 0).
Proof.
  rewrite update_price_after_add_stock. unfold reprice. cbn.
  eexists _, (length (heap s)). split; [reflexivity|].
  unfold get_stock, gets, deref. cbn [portfolio_map heap].
  rewrite dict_get_set_eq. split; [reflexivity|].
  now rewrite list_lookup_middle.
Qed.

(** C3, as stated, fails: the store reached by
    [add_stock("000000", "Free", 10, 0)] then
    [update_price("000000", 100, 1.5)] holds a record at price 100 whose
    profit/loss is 0, where the formula gives [(100 - 0) * 10]. *)
Lemma C3_derived_fields_counterexample :
  exists s r,
    reachable s
    /\ record_of s "000000" = Some r
    /\ current_price r = 100 /\ buy_price r = 0 /\ quantity r = 10
    /\ profit_loss r = 0
    /\ ~ Spec.consistent r.
Proof.
  exists (snd (update_price "000000" 100 1.5%float Sample.free_stock)).
  eexists. split; [|split; [vm_compute; reflexivity|]].
  - apply (reachable_call Sample.free_stock (UpdatePrice "000000" 100 1.5%float));
      [|vm_compute; reflexivity].
    apply (reachable_call init (AddStock "000000" "Free" 10 0));
      [apply reachable_init | reflexivity].
  - cbn. repeat split. intros [_ H]. discriminate H.
Qed.

(** C3, amended.  In every store reached from a new engine by calls of
    [add_stock], [update_price] and [batch_update_prices] that return, each
    record either has a positive buy price and derived fields that follow
    the formulas on its own price, buy price and quantity, or still has the
    profit rate 0 and the profit/loss 0 written by [add_stock]; in the
    second case its buy price is not positive, or it has not been updated
    since [add_stock] (price 0, change rate 0). *)
Theorem C3_derived_fields_invariant s ticker r :
  reachable s ->
  record_of s ticker = Some r ->
  derived_ok r.
Proof. intros Hs. apply (reachable_derived_inv s Hs). Qed.

Lemma C3_derived_fields_invariant_witness :
  reachable (snd (update_price "005930" 75000 2.5%float Sample.two_stocks))
  /\ record_of (snd (update_price "005930" 75000 2.5%float Sample.two_stocks)) "005930"
     = Some (mk_item "005930" "Sample" 100 70000 75000 2.5%float
               ((1.0714285714285714 - 1) * 100)%float 500000)
  /\ derived_ok (mk_item "005930" "Sample" 100 70000 75000 2.5%float
                   ((1.0714285714285714 - 1) * 100)%float 500000).
Proof.
  assert (H : reachable (snd (update_price "005930" 75000 2.5%float Sample.two_stocks))).
  { apply (reachable_call Sample.two_stocks (UpdatePrice "005930" 75000 2.5%float));
      [|vm_compute; reflexivity].
    apply (reachable_call Sample.one_stock (AddStock "000000" "Free" 10 0));
      [|reflexivity].
    apply (reachable_call init (AddStock "005930" "Sample" 100 70000));
      [apply reachable_init | reflexivity]. }
  split; [exact H|]. split; [vm_compute; reflexivity|].
  apply (C3_derived_fields_invariant
           (snd (update_price "005930" 75000 2.5%float Sample.two_stocks))
           "005930").
  - exact H.
  - vm_compute. reflexivity.
Defined.

(** C4, as stated, fails: on the store [Edge.lopsided], reached by calls
    that return, the total cost is 1 and the total value [2 ** 1024]; the
    total cost is positive, and [get_portfolio_summary] returns no total
    return: the quotient is beyond the doubles and the call raises
    [OverflowError]. *)
Lemma C4_overflow_counterexample :
  exists recs,
    reachable Edge.lopsided
    /\ records Edge.lopsided = Some recs
    /\ Spec.total Spec.cost recs = 1
    /\ Spec.total Spec.value recs = 2 ^ 1024
    /\ get_portfolio_summary Edge.lopsided = (Raise OverflowError, Edge.lopsided).
Proof.
  eexists. split; [|split; [vm_compute; reflexivity|]].
  - apply (reachable_call
             (snd (add_stock "000001" "Penny" 1 1
                     (snd (add_stock "000000" "Free" 1 0 init))))
             (UpdatePrice "000000" Edge.huge 0.5%float));
      [|vm_compute; reflexivity].
    apply (reachable_call (snd (add_stock "000000" "Free" 1 0 init))
             (AddStock "000001" "Penny" 1 1)); [|reflexivity].
    apply (reachable_call init (AddStock "000000" "Free" 1 0));
      [apply reachable_init | reflexivity].
  - repeat split; vm_compute; reflexivity.
Qed.

(** C4, amended.  On a store whose records are [recs],
    [get_portfolio_summary], when the total return is a double (the total
    cost is not positive, or the quotient of the total value by the total
    cost does not overflow), leaves the store as it is and returns the total
    cost [sum (buy_price * quantity)], the total value
    [sum (current_price * quantity)], their difference as total profit, the
    return [(value / cost - 1) * 100] when the total cost is positive and 0
    otherwise, and the number of records.  With no record it returns five
    zeros and raises no division error. *)
Theorem C4_portfolio_summary s recs ret :
  records s = Some recs ->
  Spec.totalReturn (Spec.total Spec.cost recs) (Spec.total Spec.value recs) = Ok ret ->
  get_portfolio_summary s
  = (Ok (Summary.mk (Spec.total Spec.cost recs) (Spec.total Spec.value recs)
           (Spec.total Spec.value recs - Spec.total Spec.cost recs)
           ret (length recs)), s)
  /\ (Spec.total Spec.cost recs <= 0 -> ret = 0%float)
  /\ (recs = [] ->
      get_portfolio_summary s
      = (Ok (Summary.mk 0 0 0 0%float 0), s))
  /\ get_portfolio_summary init
     = (Ok (Summary.mk 0 0 0 0%float 0), init).
Proof.
  intros Hrecs Hret. rewrite (get_portfolio_summary_records _ _ Hrecs), Hret.
  split; [reflexivity|]. split; [|split].
  - intros Hle. unfold Spec.totalReturn in Hret.
    destruct (Z.ltb_spec 0 (Spec.total Spec.cost recs)); [lia|]. congruence.
  - intros ->. cbn in Hret. injection Hret as <-. reflexivity.
  - reflexivity.
Qed.

Lemma C4_portfolio_summary_witness :
  records (snd (update_price "005930" 75000 2.5%float Sample.two_stocks))
  = Some [mk_item "005930" "Sample" 100 70000 75000 2.5%float
            ((1.0714285714285714 - 1) * 100)%float 500000;
          mk_item "000000" "Free" 10 0 0 0%float 0%float 0]
  /\ Spec.totalReturn 7000000 7500000 = Ok ((1.0714285714285714 - 1) * 100)%float
  /\ get_portfolio_summary
       (snd (update_price "005930" 75000 2.5%float Sample.two_stocks))
     = (Ok (Summary.mk 7000000 7500000 500000
              ((1.0714285714285714 - 1) * 100)%float 2),
        snd (update_price "005930" 75000 2.5%float Sample.two_stocks)).
Proof.
  split; [vm_compute; reflexivity|]. split; [vm_compute; reflexivity|].
  apply (C4_portfolio_summary
           (snd (update_price "005930" 75000 2.5%float Sample.two_stocks))
           [mk_item "005930" "Sample" 100 70000 75000 2.5%float
              ((1.0714285714285714 - 1) * 100)%float 500000;
            mk_item "000000" "Free" 10 0 0 0%float 0%float 0]
           ((1.0714285714285714 - 1) * 100)%float).
  - vm_compute. reflexivity.
  - vm_compute. reflexivity.
Defined.

(** C5, as stated, fails: in a batch of two entries that both name a
    record of the store, the first raises [OverflowError] (a price of
    [2 ** 1024] for a buy price of 1), the batch raises it, and the second
    entry is not applied: the record of "005930" keeps the price 0. *)
Lemma C5_batch_overflow_counterexample :
  exists s' r,
    ThreadSafePortfolioEngine.batch_update_prices
      [("000001"%string, 2 ^ 1024, 0.5%float); ("005930"%string, 75000, 2.5%float)]
      Edge.two_priced
    = (Raise OverflowError, s')
    /\ get_stock "000001" Edge.two_priced = (Ok (Some 1%nat), Edge.two_priced)
    /\ get_stock "005930" Edge.two_priced = (Ok (Some 0%nat), Edge.two_priced)
    /\ record_of s' "005930" = Some r
    /\ current_price r = 0
    /\ current_price r <> 75000.
Proof.
  eexists _, _. split; [vm_compute; reflexivity|].
  split; [reflexivity|]. split; [reflexivity|].
  split; [vm_compute; reflexivity|]. split; [reflexivity | discriminate].
Qed.

(** C5, amended.  A batch on a well-formed store is the sequence of its
    entries, each a call of [update_price] whose result is dropped; the
    entries that name no record change nothing and signal nothing, so that
    the batch without them does the same, and a batch of such entries alone
    returns with the store as it was.  Whatever the outcome, the map is
    unchanged, and the record of a ticker not named by an entry that names a
    record is unchanged.  When the batch returns (no division of an entry
    overflows), the record named by the last entry for a ticker is the
    record it was before the batch with the price and the change rate of
    that entry, the profit rate [(price / buy_price - 1) * 100] and the
    profit/loss [(price - buy_price) * quantity] under a positive buy price,
    and its former profit rate and profit/loss otherwise: what a single
    [update_price] with that entry makes of it. *)
Theorem C5_batch_update s us :
  wf s ->
  ThreadSafePortfolioEngine.batch_update_prices us s = for_each us update_step s
  /\ ThreadSafePortfolioEngine.batch_update_prices us s
     = ThreadSafePortfolioEngine.batch_update_prices (List.filter (present_in s) us) s
  /\ (List.filter (present_in s) us = [] ->
      ThreadSafePortfolioEngine.batch_update_prices us s = (Ok tt, s))
  /\ forall o s',
      ThreadSafePortfolioEngine.batch_update_prices us s = (o, s') ->
      portfolio_map s' = portfolio_map s
      /\ (forall t, ~ In t (tickers (List.filter (present_in s) us)) ->
                    record_of s' t = record_of s t)
      /\ (forall pre ticker price rate post l r,
             o = Ok tt ->
             us = pre ++ (ticker, price, rate) :: post ->
             ~ In ticker (tickers post) ->
             get_stock ticker s = (Ok (Some l), s) ->
             deref s l = Some r ->
             exists r',
               deref s' l = Some r'
               /\ updated r price rate r'
               /\ update_price ticker price rate s
                  = (Ok true, mk_store (<[l := r']> (heap s)) (portfolio_map s))).
Proof.
  intros Hwf. split; [apply batch_update_prices_for_each|].
  split; [apply batch_skip_absent|]. split.
  - intros Hnone. now rewrite batch_skip_absent, Hnone.
  - intros o s' H. split; [eapply batch_map; exact H|]. split.
    + intros t Ht. rewrite batch_skip_absent in H.
      eapply batch_record_of_other; eassumption.
    + intros pre ticker price rate post l r -> -> Hlast Hl Hr.
      unfold get_stock, gets in Hl. injection Hl as Hl.
      eapply batch_last_entry_updated; eassumption.
Qed.

Lemma C5_batch_update_witness :
  wf Sample.two_stocks
  /\ ThreadSafePortfolioEngine.batch_update_prices
       [("005930"%string, 71000, 0.5%float); ("035420"%string, 200000, 0.5%float);
        ("005930"%string, 75000, 2.5%float)]
       Sample.two_stocks
     = (Ok tt, snd (update_price "005930" 75000 2.5%float Sample.two_stocks))
  /\ get_stock "005930" Sample.two_stocks = (Ok (Some 0%nat), Sample.two_stocks)
  /\ deref Sample.two_stocks 0%nat
     = Some (mk_item "005930" "Sample" 100 70000 0 0%float 0%float 0)
  /\ exists r',
       deref (snd (update_price "005930" 75000 2.5%float Sample.two_stocks)) 0%nat
       = Some r'
       /\ updated (mk_item "005930" "Sample" 100 70000 0 0%float 0%float 0)
            75000 2.5%float r'
       /\ update_price "005930" 75000 2.5%float Sample.two_stocks
          = (Ok true,
             mk_store (<[0%nat := r']> (heap Sample.two_stocks))
                      (portfolio_map Sample.two_stocks)).
Proof.
  assert (H : wf Sample.two_stocks) by (do 2 apply wf_add_stock; apply wf_init).
  split; [exact H|]. split; [vm_compute; reflexivity|].
  split; [reflexivity|]. split; [reflexivity|].
  destruct (C5_batch_update Sample.two_stocks
              [("005930"%string, 71000, 0.5%float); ("035420"%string, 200000, 0.5%float);
               ("005930"%string, 75000, 2.5%float)] H)
    as (_ & _ & _ & Hbatch).
  destruct (Hbatch (Ok tt) (snd (update_price "005930" 75000 2.5%float Sample.two_stocks)))
    as (_ & _ & Hlast).
  - vm_compute. reflexivity.
  - apply (Hlast [("005930"%string, 71000, 0.5%float); ("035420"%string, 200000, 0.5%float)]
             "005930"%string 75000 2.5%float [] 0%nat
             (mk_item "005930" "Sample" 100 70000 0 0%float 0%float 0)).
    + reflexivity.
    + reflexivity.
    + intros [].
    + reflexivity.
    + reflexivity.
Defined.

(** C6. On any store, [update_price] on a ticker that the map does not
    hold returns [False] and leaves the store as it was: the same map, of
    the same size, and the same objects. *)
Theorem C6_update_unknown_ticker s ticker price rate :
  get_stock ticker s = (Ok None, s) ->
  exists s',
    update_price ticker price rate s = (Ok false, s')
    /\ s' = s
    /\ length (portfolio_map s') = length (portfolio_map s)
    /\ (forall l, deref s' l = deref s l).
Proof.
  unfold get_stock, gets. intros [= H]. exists s.
  rewrite update_price_absent by exact H. auto.
Qed.

Lemma C6_update_unknown_ticker_witness :
  get_stock "035420" Sample.one_stock = (Ok None, Sample.one_stock)
  /\ exists s',
       update_price "035420" 200000 1.5%float Sample.one_stock = (Ok false, s')
       /\ s' = Sample.one_stock
       /\ length (portfolio_map s') = length (portfolio_map Sample.one_stock)
       /\ (forall l, deref s' l = deref Sample.one_stock l).
Proof.
  split; [reflexivity|].
  apply (C6_update_unknown_ticker Sample.one_stock "035420" 200000 1.5%float).
  reflexivity.
Defined.

(** C7, as stated, fails: the reference that [get_stock] returned, and that
    [get_all_stocks] listed, before [update_price("005930", 75000, 2.5)]
    shows the price 75000 after it, where it showed 0 before. *)
Lemma C7_snapshot_counterexample :
  exists l r0 s' r1,
    get_stock "005930" Sample.one_stock = (Ok (Some l), Sample.one_stock)
    /\ get_all_stocks Sample.one_stock = (Ok [l], Sample.one_stock)
    /\ deref Sample.one_stock l = Some r0
    /\ update_price "005930" 75000 2.5%float Sample.one_stock = (Ok true, s')
    /\ deref s' l = Some r1
    /\ current_price r0 = 0 /\ current_price r1 = 75000
    /\ r1 <> r0.
Proof.
  exists 0%nat. eexists _, _, _. vm_compute.
  repeat split; try reflexivity. discriminate.
Qed.

(** C7, amended.  [get_stock] and [get_all_stocks] return references to the
    record objects of the store, not copies: after [update_price] on a
    ticker, or a batch with one entry for it, the reference returned before
    is still the one the store holds for the ticker, [get_all_stocks] lists
    the same references, and a read through it shows the new price and
    change rate. *)
Theorem C7_reads_are_live_references s ticker l price rate s' :
  get_stock ticker s = (Ok (Some l), s) ->
  update_price ticker price rate s = (Ok true, s') ->
  (exists ls, get_all_stocks s = (Ok ls, s) /\ In l ls
              /\ get_all_stocks s' = (Ok ls, s'))
  /\ get_stock ticker s' = (Ok (Some l), s')
  /\ (exists r', deref s' l = Some r'
                 /\ current_price r' = price /\ change_rate r' = rate)
  /\ ThreadSafePortfolioEngine.batch_update_prices [(ticker, price, rate)] s
     = (Ok tt, s').
Proof.
  unfold get_stock, get_all_stocks, gets. intros [= Hl] Hu.
  assert (Hstep : update_step (ticker, price, rate) s = (Ok tt, s'))
    by (unfold update_step, bind; now rewrite Hu).
  pose proof (update_step_map _ _ _ _ Hstep) as Hm.
  rewrite update_price_reprice in Hu. unfold reprice_at in Hu. rewrite Hl in Hu.
  destruct (heap s !! l) as [r|] eqn:Hr; [|discriminate].
  injection Hu as _ <-. cbn [portfolio_map heap] in *.
  split; [|split; [|split]].
  - eexists. split; [reflexivity|]. split; [|reflexivity].
    apply in_map_iff. exists (ticker, l). split; [reflexivity|].
    now apply dict_get_In.
  - now rewrite Hl.
  - unfold deref. cbn [heap]. rewrite (heap_insert_lookup _ _ _ _ Hr).
    eexists. split; [reflexivity|]. apply reprice_price_fields.
  - rewrite batch_update_prices_cons. unfold bind. now rewrite Hstep.
Qed.

Lemma C7_reads_are_live_references_witness :
  get_stock "005930" Sample.one_stock = (Ok (Some 0%nat), Sample.one_stock)
  /\ update_price "005930" 75000 2.5%float Sample.one_stock
     = (Ok true, snd (update_price "005930" 75000 2.5%float Sample.one_stock))
  /\ get_stock "005930" (snd (update_price "005930" 75000 2.5%float Sample.one_stock))
     = (Ok (Some 0%nat), snd (update_price "005930" 75000 2.5%float Sample.one_stock)).
Proof.
  split; [reflexivity|]. split; [vm_compute; reflexivity|].
  apply (C7_reads_are_live_references Sample.one_stock "005930" 0%nat 75000 2.5%float
           (snd (update_price "005930" 75000 2.5%float Sample.one_stock))).
  - reflexivity.
  - vm_compute. reflexivity.
Defined.

(** C8. On a well-formed store, [update_price] and [batch_update_prices],
    whatever their outcome, keep the map, and keep the ticker code, the
    name, the quantity and the buy price of every record object; the record
    of every ticker other than the updated one, or than those named in the
    batch, is unchanged in all its fields. *)
Theorem C8_price_updates_keep_positions s :
  wf s ->
  (forall ticker price rate o s',
      update_price ticker price rate s = (o, s') ->
      portfolio_map s' = portfolio_map s
      /\ (forall l r, deref s l = Some r ->
                      exists r', deref s' l = Some r' /\ same_position r r')
      /\ (forall t, t <> ticker -> record_of s' t = record_of s t))
  /\ (forall us o s',
         ThreadSafePortfolioEngine.batch_update_prices us s = (o, s') ->
         portfolio_map s' = portfolio_map s
         /\ (forall l r, deref s l = Some r ->
                         exists r', deref s' l = Some r' /\ same_position r r')
         /\ (forall t, ~ In t (tickers us) -> record_of s' t = record_of s t)).
Proof.
  intros Hwf.
  assert (Hbatch : forall us o s',
             ThreadSafePortfolioEngine.batch_update_prices us s = (o, s') ->
             portfolio_map s' = portfolio_map s
             /\ (forall l r, deref s l = Some r ->
                             exists r', deref s' l = Some r' /\ same_position r r')
             /\ (forall t, ~ In t (tickers us) -> record_of s' t = record_of s t)).
  { intros us o s' H. split; [eapply batch_map; exact H|]. split.
    - intros l r. apply (batch_same_position _ _ _ _ _ _ H).
    - intros t. now apply (batch_record_of_other us s o s' t). }
  split; [|exact Hbatch].
  intros ticker price rate o s' H.
  destruct (Hbatch [(ticker, price, rate)]
              (match o with Ok _ => Ok tt | Raise e => Raise e end) s')
    as (Hm & Hsame & Hother).
  { rewrite batch_update_prices_cons. unfold bind, update_step, bind.
    rewrite H. now destruct o. }
  split; [exact Hm|]. split; [exact Hsame|].
  intros t Ht. apply Hother. cbn. intuition congruence.
Qed.

Lemma C8_price_updates_keep_positions_witness :
  wf Sample.two_stocks
  /\ "000000"%string <> "005930"%string
  /\ record_of (snd (update_price "005930" 75000 2.5%float Sample.two_stocks)) "000000"
     = record_of Sample.two_stocks "000000".
Proof.
  assert (H : wf Sample.two_stocks) by (do 2 apply wf_add_stock; apply wf_init).
  split; [exact H|]. split; [discriminate|].
  destruct (C8_price_updates_keep_positions Sample.two_stocks H) as [Hu _].
  destruct (Hu "005930"%string 75000 2.5%float
              (fst (update_price "005930" 75000 2.5%float Sample.two_stocks))
              (snd (update_price "005930" 75000 2.5%float Sample.two_stocks)))
    as (_ & _ & Hother).
  - vm_compute. reflexivity.
  - apply Hother. discriminate.
Defined.







End Claims.

(** * Further properties of the engines *)

(** ** Divisions *)

Section DivisionFacts.

(** A division of integers raises for a zero divisor, and for a quotient
    beyond the doubles, and for nothing else. *)
Lemma truediv_Raise a b e :
  truediv a b = Raise e ->
  (b = 0 /\ e = ZeroDivisionError) \/ (b <> 0 /\ e = OverflowError).
Proof.
  unfold truediv. destruct (Z.eqb_spec b 0) as [->|Hb].
  - intros [= <-]. now left.
  - destruct (SFdiv prec emax (Z2SF a) (Z2SF b)); intros [= <-]; now right.
Qed.

Lemma truediv_0_l b : 0 < b -> truediv 0 b = Ok 0%float.
Proof. destruct b as [|p|p]; try lia. intros _. reflexivity. Qed.

(** What a guarded division raises is an [OverflowError]. *)
Lemma reprice_Raise price rate r e :
  fst (reprice price rate r) = Raise e -> e = OverflowError.
Proof.
  unfold reprice. destruct (Z.ltb_spec 0 (buy_price r)) as [Hpos|_]; [|discriminate].
  destruct (truediv price (buy_price r)) as [q|e'] eqn:Hq; [discriminate|].
  intros [= <-]. destruct (truediv_Raise _ _ _ Hq) as [[H _]|[_ H]]; [lia | exact H].
Qed.

End DivisionFacts.

(** ** Insertion *)

Section AddStockFacts.
Import PortfolioEngine.
Implicit Types (s : store) (l : loc) (r : item).

Lemma dict_mem_set k k' v d :
  dict_mem k' (dict_set k v d) = (String.eqb k k' || dict_mem k' d)%bool.
Proof.
  unfold dict_mem. destruct (String.eqb_spec k k') as [<-|Hne].
  - now rewrite dict_get_set_eq.
  - now rewrite dict_get_set_ne.
Qed.

(** The only new value of [d[k] = v] is [v]; the values of the other keys
    stay in their order. *)
Lemma dict_set_values_new k v d :
  dict_mem k d = false -> map snd (dict_set k v d) = map snd d ++ [v].
Proof.
  unfold dict_mem. induction d as [|[k0 v0] d IH]; cbn; [reflexivity|].
  destruct (String.eqb_spec k k0) as [->|Hk]; [discriminate|].
  intros H. cbn. f_equal. now apply IH.
Qed.

(** An update statement run through [update_price], whatever it returns. *)
Lemma update_price_update_step ticker price rate s o s' :
  update_price ticker price rate s = (o, s') ->
  update_step (ticker, price, rate) s
  = (match o with Ok _ => Ok tt | Raise e => Raise e end, s').
Proof. intros H. unfold update_step, bind. rewrite H. now destruct o. Qed.

Lemma add_stock_old_objects ticker name qty cost s l r :
  deref s l = Some r -> deref (snd (add_stock ticker name qty cost s)) l = Some r.
Proof.
  rewrite add_stock_store. unfold deref. cbn [snd heap]. apply lookup_app_l_Some.
Qed.

Lemma add_stock_other_record ticker name qty cost s t :
  wf s -> t <> ticker ->
  record_of (snd (add_stock ticker name qty cost s)) t = record_of s t.
Proof.
  intros Hwf Hne. rewrite add_stock_store. unfold record_of, deref.
  cbn [snd heap portfolio_map]. rewrite dict_get_set_ne by congruence.
  destruct (dict_get t (portfolio_map s)) as [l|] eqn:Hl; [|reflexivity].
  destruct (wf_live _ _ _ Hwf Hl) as [r Hr].
  now rewrite (lookup_app_l_Some _ _ _ _ Hr).
Qed.

End AddStockFacts.

(** ** Insertion and lookup *)

Section InsertionProperties.
Import PortfolioEngine.

(** X1. On any store, [add_stock] returns, and [get_stock] on the same
    ticker then gives a reference to a record holding the arguments and
    zeroed price fields.  The record is a new object: the reference named
    nothing before.  A ticker already in the map keeps its place and the map
    its size; a new ticker goes last and the map grows by one. *)
Theorem X1_add_stock_then_get_stock s ticker name qty cost :
  exists s' l,
    add_stock ticker name qty cost s = (Ok tt, s')
    /\ get_stock ticker s' = (Ok (Some l), s')
    /\ deref s' l = Some (mk_item ticker name qty cost 0 0%float 0%float 0)
    /\ deref s l = None
    /\ map fst (portfolio_map s')
       = (if dict_mem ticker (portfolio_map s)
          then map fst (portfolio_map s)
          else map fst (portfolio_map s) ++ [ticker])
    /\ length (portfolio_map s')
       = (if dict_mem ticker (portfolio_map s)
          then length (portfolio_map s)
          else S (length (portfolio_map s))).
Proof.
  rewrite add_stock_store. eexists _, (length (heap s)).
  split; [reflexivity|]. unfold get_stock, gets, deref. cbn [portfolio_map heap].
  rewrite dict_get_set_eq. split; [reflexivity|].
  split; [now apply list_lookup_middle|].
  split; [now apply lookup_ge_None_2|].
  split; [apply dict_set_keys | apply dict_set_length].
Qed.

(** X2. Inserting a ticker again detaches the record it named: the store
    holds a new reference for the ticker, the old object keeps its fields,
    and a later [update_price] on the ticker, whatever its outcome, does not
    reach the old object. *)
Theorem X2_reinsert_detaches_old_record s ticker l0 name qty cost price rate :
  wf s ->
  get_stock ticker s = (Ok (Some l0), s) ->
  exists s1 l1,
    add_stock ticker name qty cost s = (Ok tt, s1)
    /\ get_stock ticker s1 = (Ok (Some l1), s1)
    /\ l1 <> l0
    /\ deref s1 l0 = deref s l0
    /\ (forall o s2, update_price ticker price rate s1 = (o, s2) ->
                     deref s2 l0 = deref s l0).
Proof.
  unfold get_stock, gets. intros Hwf [= Hl0].
  destruct (wf_live _ _ _ Hwf Hl0) as [r0 Hr0].
  pose proof (lookup_lt_Some _ _ _ Hr0) as Hlt.
  rewrite add_stock_store. eexists _, (length (heap s)).
  split; [reflexivity|]. cbn [portfolio_map heap]. rewrite dict_get_set_eq.
  split; [reflexivity|]. split; [lia|].
  assert (Hold : (heap s ++ [mk_item ticker name qty cost 0 0%float 0%float 0]) !! l0
                 = heap s !! l0) by now apply lookup_app_l.
  split; [exact Hold|]. intros o s2 Hu. unfold deref. rewrite <- Hold.
  apply update_price_update_step in Hu.
  apply (update_step_other _ _ _ _ l0 Hu). cbn [fst portfolio_map].
  rewrite dict_get_set_eq. intros E. injection E as E. lia.
Qed.

Lemma X2_reinsert_detaches_old_record_witness :
  wf Sample.one_stock
  /\ get_stock "005930" Sample.one_stock = (Ok (Some 0%nat), Sample.one_stock)
  /\ exists s1 l1,
       add_stock "005930" "Again" 1 80000 Sample.one_stock = (Ok tt, s1)
       /\ get_stock "005930" s1 = (Ok (Some l1), s1)
       /\ l1 <> 0%nat
       /\ deref s1 0%nat = deref Sample.one_stock 0%nat
       /\ (forall o s2, update_price "005930" 75000 2.5%float s1 = (o, s2) ->
                        deref s2 0%nat = deref Sample.one_stock 0%nat).
Proof.
  assert (H : wf Sample.one_stock) by (apply wf_add_stock, wf_init).
  split; [exact H|]. split; [reflexivity|].
  apply (X2_reinsert_detaches_old_record Sample.one_stock "005930" 0%nat
           "Again" 1 80000 75000 2.5%float).
  - exact H.
  - reflexivity.
Defined.

(** X3. [add_stock] touches no record but the one of its ticker: on a
    well-formed store the record of every other ticker is unchanged, and so
    is every object that a reference handed out earlier leads to. *)
Theorem X3_add_stock_keeps_other_records s ticker name qty cost s' :
  wf s ->
  add_stock ticker name qty cost s = (Ok tt, s') ->
  (forall t, t <> ticker -> record_of s' t = record_of s t)
  /\ (forall l r, deref s l = Some r -> deref s' l = Some r).
Proof.
  intros Hwf H.
  assert (E : s' = snd (add_stock ticker name qty cost s)) by now rewrite H.
  subst s'. split.
  - intros t Ht. now apply add_stock_other_record.
  - intros l r. apply add_stock_old_objects.
Qed.

Lemma X3_add_stock_keeps_other_records_witness :
  wf Sample.one_stock
  /\ add_stock "000000" "Free" 10 0 Sample.one_stock = (Ok tt, Sample.two_stocks)
  /\ "005930"%string <> "000000"%string
  /\ record_of Sample.two_stocks "005930" = record_of Sample.one_stock "005930".
Proof.
  assert (H : wf Sample.one_stock) by (apply wf_add_stock, wf_init).
  split; [exact H|]. split; [reflexivity|]. split; [discriminate|].
  destruct (X3_add_stock_keeps_other_records Sample.one_stock "000000" "Free" 10 0
              Sample.two_stocks H eq_refl) as [Hother _].
  apply Hother. discriminate.
Defined.

End InsertionProperties.

(** ** Reads and exceptions *)

Section OutcomeFacts.
Import PortfolioEngine.
Implicit Types (s : store) (l : loc) (r : item) (u : string * Z * float).

Lemma scan_state items totals s : snd (scan items totals s) = s.
Proof.
  revert totals. induction items as [|[t l] items IH]; intros [[a b] c]; [reflexivity|].
  cbn [scan]. destruct (heap s !! l) as [r|] eqn:Hr.
  - rewrite !(bind_Ok _ _ _ _ _ (getitem_Some _ _ _ _ Hr)). apply IH.
  - unfold bind at 1. unfold getitem at 1. now rewrite Hr.
Qed.

Lemma get_portfolio_summary_state s : snd (get_portfolio_summary s) = s.
Proof.
  unfold get_portfolio_summary. unfold bind at 1. unfold gets at 1.
  unfold bind at 1. pose proof (scan_state (portfolio_map s) (0, 0, 0) s) as H.
  destruct (scan (portfolio_map s) (0, 0, 0) s) as [[[[tc tv] tp]|e] s0];
    cbn [snd] in H; subst s0; [|reflexivity].
  unfold bind at 1. destruct (0 <? tc).
  - unfold bind at 1. unfold lift. destruct (truediv tv tc); reflexivity.
  - reflexivity.
Qed.

(** The references of a well-formed store all lead to a record. *)
Lemma wf_records s : wf s -> exists recs, records s = Some recs.
Proof.
  intros (_ & _ & Hlive). unfold records, deref.
  induction (portfolio_map s) as [|[t l] d IH]; [now exists []|].
  apply Forall_cons in Hlive as [Hl Hd]. cbn in Hl.
  destruct (IH Hd) as [rs Hrs].
  destruct (lookup_lt_is_Some_2 _ _ Hl) as [r Hr].
  exists (r :: rs). cbn [map snd deref_all]. unfold deref. now rewrite Hr, Hrs.
Qed.

(** A loop that raises was stopped by one of its entries. *)
Lemma for_each_Raise_inv {St A} (body : A -> M St unit) (P : St -> Prop) xs :
  (forall x (a : St) o (b : St), In x xs -> P a -> body x a = (o, b) -> P b) ->
  forall (a : St) e (b : St),
    P a -> for_each xs body a = (Raise e, b) ->
    exists x (a' : St), In x xs /\ P a' /\ body x a' = (Raise e, b).
Proof.
  induction xs as [|x xs IH]; intros Hstep a e b HP; cbn [for_each]; [discriminate|].
  unfold bind. destruct (body x a) as [[[]|e'] a1] eqn:Hx.
  - intros H. destruct (IH (fun x' c o c' Hin => Hstep x' c o c' (or_intror Hin))
                          a1 e b (Hstep _ _ _ _ (or_introl eq_refl) HP Hx) H)
      as (y & a' & Hin & Ha' & Hy).
    exists y, a'. split; [now right | now split].
  - intros [= <- <-]. exists x, a. split; [now left | now split].
Qed.

Lemma update_step_Raise u s e s' :
  wf s -> update_step u s = (Raise e, s') -> e = OverflowError.
Proof.
  destruct u as [[ticker price] rate]. intros Hwf.
  unfold update_step, bind. rewrite update_price_reprice. unfold reprice_at.
  destruct (dict_get ticker (portfolio_map s)) as [l|] eqn:Hl; [|discriminate].
  destruct (wf_live _ _ _ Hwf Hl) as [r Hr]. rewrite Hr.
  destruct (fst (reprice price rate r)) as [[]|e0] eqn:Hf; [discriminate|].
  intros [= <- _]. eapply reprice_Raise. exact Hf.
Qed.

(** The outcomes of [update_price] that return, read back. *)
Lemma update_price_Ok_inv ticker price rate s b s' :
  update_price ticker price rate s = (Ok b, s') ->
  (dict_get ticker (portfolio_map s) = None /\ b = false /\ s' = s)
  \/ (exists l r,
         dict_get ticker (portfolio_map s) = Some l /\ heap s !! l = Some r
         /\ fst (reprice price rate r) = Ok tt /\ b = true
         /\ s' = mk_store (<[l := snd (reprice price rate r)]> (heap s))
                          (portfolio_map s)).
Proof.
  rewrite update_price_reprice. unfold reprice_at.
  destruct (dict_get ticker (portfolio_map s)) as [l|]; [|intros [= <- <-]; now left].
  destruct (heap s !! l) as [r|] eqn:Hr; [|discriminate].
  destruct (fst (reprice price rate r)) as [[]|e] eqn:Hf; [|discriminate].
  intros [= <- <-]. right. exists l, r. repeat split; try reflexivity; assumption.
Qed.

Lemma update_price_present ticker price rate s l r :
  dict_get ticker (portfolio_map s) = Some l -> heap s !! l = Some r ->
  update_price ticker price rate s
  = (match fst (reprice price rate r) with Ok _ => Ok true | Raise e => Raise e end,
     mk_store (<[l := snd (reprice price rate r)]> (heap s)) (portfolio_map s)).
Proof.
  intros Hl Hr. rewrite update_price_reprice. unfold reprice_at. now rewrite Hl, Hr.
Qed.

Lemma update_price_map ticker price rate s o s' :
  update_price ticker price rate s = (o, s') -> portfolio_map s' = portfolio_map s.
Proof.
  intros H. apply update_price_update_step in H.
  eapply update_step_map. exact H.
Qed.

End OutcomeFacts.

Section OutcomeProperties.
Import PortfolioEngine.

(** X4. The three reads, [get_stock], [get_all_stocks] and
    [get_portfolio_summary], leave the store as it is, whatever they return
    or raise, so that a read repeated with no write in between gives the
    same result. *)
Theorem X4_reads_leave_the_store s ticker :
  snd (get_stock ticker s) = s
  /\ snd (get_all_stocks s) = s
  /\ snd (get_portfolio_summary s) = s
  /\ get_portfolio_summary (snd (get_portfolio_summary s)) = get_portfolio_summary s
  /\ get_all_stocks (snd (get_portfolio_summary s)) = get_all_stocks s
  /\ get_stock ticker (snd (get_portfolio_summary s)) = get_stock ticker s.
Proof.
  rewrite get_portfolio_summary_state. repeat split; reflexivity.
Qed.

(** X5. On a well-formed store no method raises anything but
    [OverflowError]: [add_stock] always returns, and [update_price],
    [batch_update_prices] and [get_portfolio_summary] divide under a guard
    that excludes the zero divisor, so that [ZeroDivisionError] and
    [KeyError] never come out of them. *)
Theorem X5_only_overflow_is_raised s e :
  wf s ->
  (forall t n q b, fst (add_stock t n q b s) = Ok tt)
  /\ (forall t p c s', update_price t p c s = (Raise e, s') -> e = OverflowError)
  /\ (forall us s',
         ThreadSafePortfolioEngine.batch_update_prices us s = (Raise e, s') ->
         e = OverflowError)
  /\ (forall s', get_portfolio_summary s = (Raise e, s') -> e = OverflowError).
Proof.
  intros Hwf. split; [reflexivity|]. split; [|split].
  - intros t p c s' H. apply update_price_update_step in H.
    eapply update_step_Raise; eassumption.
  - intros us s'. rewrite batch_update_prices_for_each. intros H.
    destruct (for_each_Raise_inv update_step wf us
                (fun u a o b _ Ha Hu => wf_update_step u a o b Hu Ha) s e s' Hwf H)
      as (u & a & _ & Ha & Hu).
    eapply update_step_Raise; eassumption.
  - intros s'. destruct (wf_records s Hwf) as [recs Hrecs].
    rewrite (get_portfolio_summary_records _ _ Hrecs). unfold Spec.totalReturn.
    destruct (Z.ltb_spec 0 (Spec.total Spec.cost recs)) as [Hpos|_]; [|discriminate].
    destruct (truediv _ _) as [q|e0] eqn:Hq; [discriminate|].
    intros [= <- _]. destruct (truediv_Raise _ _ _ Hq) as [[H0 _]|[_ He]]; [lia|exact He].
Qed.

Lemma X5_only_overflow_is_raised_witness :
  wf Edge.penny_stock
  /\ (exists s', update_price "000001" Edge.huge 0%float Edge.penny_stock
                 = (Raise OverflowError, s'))
  /\ (forall s', update_price "000001" Edge.huge 0%float Edge.penny_stock
                 = (Raise ZeroDivisionError, s') -> ZeroDivisionError = OverflowError).
Proof.
  assert (H : wf Edge.penny_stock) by (apply wf_add_stock, wf_init).
  split; [exact H|]. split; [eexists; vm_compute; reflexivity|].
  destruct (X5_only_overflow_is_raised Edge.penny_stock ZeroDivisionError H)
    as (_ & Hu & _).
  intros s'. apply Hu.
Defined.

(** X6. [update_price] is not undone when its division overflows: for a
    record with a positive buy price and a price whose quotient is beyond
    the doubles, the call raises [OverflowError] and leaves the record with
    the new price and change rate and the profit fields it had before. *)
Theorem X6_overflow_leaves_a_partial_update s ticker l r price rate e :
  get_stock ticker s = (Ok (Some l), s) ->
  deref s l = Some r ->
  0 < buy_price r ->
  truediv price (buy_price r) = Raise e ->
  exists s',
    update_price ticker price rate s = (Raise OverflowError, s')
    /\ deref s' l = Some (set_change_rate rate (set_current_price price r))
    /\ portfolio_map s' = portfolio_map s.
Proof.
  unfold get_stock, gets, deref. intros [= Hl] Hr Hpos Hq.
  rewrite (update_price_present _ _ _ _ _ _ Hl Hr). unfold reprice.
  destruct (Z.ltb_spec 0 (buy_price r)) as [_|]; [|lia]. rewrite Hq. cbn [fst snd].
  destruct (truediv_Raise _ _ _ Hq) as [[H0 _]|[_ ->]]; [lia|].
  eexists. split; [reflexivity|]. cbn [heap portfolio_map].
  split; [|reflexivity]. eapply heap_insert_lookup. exact Hr.
Qed.

Lemma X6_overflow_leaves_a_partial_update_witness :
  get_stock "000001" Edge.penny_stock = (Ok (Some 0%nat), Edge.penny_stock)
  /\ deref Edge.penny_stock 0%nat = Some (mk_item "000001" "Penny" 5 1 0 0%float 0%float 0)
  /\ 0 < 1
  /\ truediv Edge.huge 1 = Raise OverflowError
  /\ exists s',
       update_price "000001" Edge.huge 1.5%float Edge.penny_stock
       = (Raise OverflowError, s')
       /\ deref s' 0%nat
          = Some (mk_item "000001" "Penny" 5 1 Edge.huge 1.5%float 0%float 0)
       /\ portfolio_map s' = portfolio_map Edge.penny_stock.
Proof.
  split; [reflexivity|]. split; [reflexivity|]. split; [lia|].
  split; [vm_compute; reflexivity|].
  apply (X6_overflow_leaves_a_partial_update Edge.penny_stock "000001" 0%nat
           (mk_item "000001" "Penny" 5 1 0 0%float 0%float 0)
           Edge.huge 1.5%float OverflowError).
  - reflexivity.
  - reflexivity.
  - cbn. lia.
  - vm_compute. reflexivity.
Defined.

End OutcomeProperties.

(** ** How updates compose *)

Section UpdateProperties.
Import PortfolioEngine.

(** X7. When [update_price] returns, its result tells whether the ticker
    is in the map: [True] exactly when [get_stock] finds it.  The call adds
    no key, removes none and creates no object. *)
Theorem X7_update_price_tells_presence s ticker price rate b s' :
  update_price ticker price rate s = (Ok b, s') ->
  b = dict_mem ticker (portfolio_map s)
  /\ (b = true <-> exists l, get_stock ticker s = (Ok (Some l), s))
  /\ portfolio_map s' = portfolio_map s
  /\ length (heap s') = length (heap s).
Proof.
  intros H. unfold get_stock, gets, dict_mem.
  destruct (update_price_Ok_inv _ _ _ _ _ _ H)
    as [(Hl & -> & ->)|(l & r & Hl & Hr & _ & -> & ->)]; rewrite Hl.
  - repeat split; try reflexivity; [discriminate|]. intros [l [= ?]].
  - cbn [portfolio_map heap]. rewrite length_insert.
    repeat split; try reflexivity. now exists l.
Qed.

Lemma X7_update_price_tells_presence_witness :
  update_price "005930" 75000 2.5%float Sample.one_stock
  = (Ok true, snd (update_price "005930" 75000 2.5%float Sample.one_stock))
  /\ true = dict_mem "005930" (portfolio_map Sample.one_stock).
Proof.
  split; [vm_compute; reflexivity|].
  destruct (X7_update_price_tells_presence Sample.one_stock "005930" 75000 2.5%float
              true (snd (update_price "005930" 75000 2.5%float Sample.one_stock)))
    as [H _].
  - vm_compute. reflexivity.
  - exact H.
Defined.

(** X8. The last update of a ticker wins: an [update_price] that returns
    [True] leaves the store that it would have left without the update of
    the same ticker made just before it, whatever the outcome of that one.
    In particular the same update made twice is the update made once. *)
Theorem X8_last_update_wins s ticker price1 rate1 o1 s1 price2 rate2 s2 :
  update_price ticker price1 rate1 s = (o1, s1) ->
  update_price ticker price2 rate2 s1 = (Ok true, s2) ->
  update_price ticker price2 rate2 s = (Ok true, s2).
Proof.
  rewrite !update_price_reprice. unfold reprice_at at 1 3.
  destruct (dict_get ticker (portfolio_map s)) as [l|] eqn:Hl.
  - destruct (heap s !! l) as [r|] eqn:Hr.
    + intros [= _ <-]. unfold reprice_at. cbn [portfolio_map heap].
      rewrite Hl, (heap_insert_lookup _ _ _ _ Hr), list_insert_insert_eq.
      pose proof (reprice_same_position price1 rate1 r) as Hsame.
      rewrite (reprice_outcome_same_position price2 rate2 _ _ Hsame).
      destruct (fst (reprice price2 rate2 r)) as [[]|e] eqn:Hf; [|discriminate].
      now rewrite (reprice_absorb _ _ _ _ _ Hf).
    + intros [= _ <-]. unfold reprice_at. now rewrite Hl, Hr.
  - intros [= _ <-]. unfold reprice_at. now rewrite Hl.
Qed.

Lemma X8_last_update_wins_witness :
  update_price "005930" 71000 0.5%float Sample.one_stock
  = (Ok true, snd (update_price "005930" 71000 0.5%float Sample.one_stock))
  /\ update_price "005930" 75000 2.5%float
       (snd (update_price "005930" 71000 0.5%float Sample.one_stock))
     = (Ok true, snd (update_price "005930" 75000 2.5%float Sample.one_stock))
  /\ update_price "005930" 75000 2.5%float Sample.one_stock
     = (Ok true, snd (update_price "005930" 75000 2.5%float Sample.one_stock)).
Proof.
  split; [vm_compute; reflexivity|]. split; [vm_compute; reflexivity|].
  apply (X8_last_update_wins Sample.one_stock "005930" 71000 0.5%float (Ok true)
           (snd (update_price "005930" 71000 0.5%float Sample.one_stock))
           75000 2.5%float).
  - vm_compute. reflexivity.
  - vm_compute. reflexivity.
Defined.

(** X9. Updates of two different tickers commute: on a well-formed store,
    two calls of [update_price] that return, made in one order, return the
    same results and leave the same store when made in the other order. *)
Theorem X9_updates_of_two_tickers_commute
    s ticker1 price1 rate1 b1 s1 ticker2 price2 rate2 b2 s12 :
  wf s ->
  ticker1 <> ticker2 ->
  update_price ticker1 price1 rate1 s = (Ok b1, s1) ->
  update_price ticker2 price2 rate2 s1 = (Ok b2, s12) ->
  exists s2,
    update_price ticker2 price2 rate2 s = (Ok b2, s2)
    /\ update_price ticker1 price1 rate1 s2 = (Ok b1, s12).
Proof.
  intros Hwf Hne H1 H2.
  destruct (update_price_Ok_inv _ _ _ _ _ _ H1)
    as [(Hl1 & -> & ->)|(l1 & r1 & Hl1 & Hr1 & Hf1 & -> & ->)].
  - exists s12. split; [exact H2|].
    apply update_price_absent.
    now rewrite (update_price_map _ _ _ _ _ _ H2).
  - destruct (update_price_Ok_inv _ _ _ _ _ _ H2)
      as [(Hl2 & -> & ->)|(l2 & r2 & Hl2 & Hr2 & Hf2 & -> & ->)];
      cbn [portfolio_map heap] in *.
    + exists s. split; [now apply update_price_absent|].
      rewrite (update_price_present _ _ _ _ _ _ Hl1 Hr1). now rewrite Hf1.
    + assert (Hl : l1 <> l2).
      { intros <-. apply Hne. destruct Hwf as (_ & Hnd & _).
        eapply dict_get_inj; eassumption. }
      rewrite list_lookup_insert_ne in Hr2 by exact Hl.
      eexists. split.
      * rewrite (update_price_present _ _ _ _ _ _ Hl2 Hr2). now rewrite Hf2.
      * rewrite (update_price_present _ _ _ _ l1 r1); cbn [portfolio_map heap].
        -- rewrite Hf1. f_equal. f_equal. apply list_insert_insert_ne.
           congruence.
        -- exact Hl1.
        -- rewrite list_lookup_insert_ne by congruence. exact Hr1.
Qed.

Lemma X9_updates_of_two_tickers_commute_witness :
  wf Edge.two_priced
  /\ "005930"%string <> "000001"%string
  /\ exists s2,
       update_price "000001" 3 1.5%float Edge.two_priced = (Ok true, s2)
       /\ update_price "005930" 75000 2.5%float s2
          = (Ok true,
             snd (update_price "000001" 3 1.5%float
                    (snd (update_price "005930" 75000 2.5%float Edge.two_priced)))).
Proof.
  assert (H : wf Edge.two_priced) by (do 2 apply wf_add_stock; apply wf_init).
  split; [exact H|]. split; [discriminate|].
  apply (X9_updates_of_two_tickers_commute Edge.two_priced
           "005930" 75000 2.5%float true
           (snd (update_price "005930" 75000 2.5%float Edge.two_priced))
           "000001" 3 1.5%float true).
  - exact H.
  - discriminate.
  - vm_compute. reflexivity.
  - vm_compute. reflexivity.
Defined.

(** X10. A price of 0 is handled like any other price: for a record with a
    positive buy price, [update_price] with price 0 returns [True] and
    leaves a profit rate of exactly -100 and a profit/loss of
    [(0 - buy_price) * quantity]. *)
Theorem X10_price_zero_gives_minus_hundred s ticker l r rate :
  get_stock ticker s = (Ok (Some l), s) ->
  deref s l = Some r ->
  0 < buy_price r ->
  exists s',
    update_price ticker 0 rate s = (Ok true, s')
    /\ deref s' l
       = Some (mk_item (ticker_code r) (stock_name r) (quantity r) (buy_price r)
                 0 rate (-100)%float ((0 - buy_price r) * quantity r)).
Proof.
  unfold get_stock, gets, deref. intros [= Hl] Hr Hpos.
  rewrite (update_price_present _ _ _ _ _ _ Hl Hr). unfold reprice.
  destruct (Z.ltb_spec 0 (buy_price r)) as [_|]; [|lia].
  rewrite (truediv_0_l _ Hpos). cbn [fst snd heap].
  eexists. split; [reflexivity|]. cbn [heap].
  now rewrite (heap_insert_lookup _ _ _ _ Hr).
Qed.

Lemma X10_price_zero_gives_minus_hundred_witness :
  get_stock "005930" Sample.one_stock = (Ok (Some 0%nat), Sample.one_stock)
  /\ deref Sample.one_stock 0%nat
     = Some (mk_item "005930" "Sample" 100 70000 0 0%float 0%float 0)
  /\ 0 < 70000
  /\ exists s',
       update_price "005930" 0 (-3.5)%float Sample.one_stock = (Ok true, s')
       /\ deref s' 0%nat
          = Some (mk_item "005930" "Sample" 100 70000 0 (-3.5)%float (-100)%float
                    (-7000000)).
Proof.
  split; [reflexivity|]. split; [reflexivity|]. split; [lia|].
  apply (X10_price_zero_gives_minus_hundred Sample.one_stock "005930" 0%nat
           (mk_item "005930" "Sample" 100 70000 0 0%float 0%float 0) (-3.5)%float).
  - reflexivity.
  - reflexivity.
  - cbn. lia.
Defined.

(** X11. [add_stock] validates nothing, and a buy price that is not
    positive switches the derived fields off: for a record inserted with
    [buy_price <= 0], negative values included, [update_price] returns
    [True], writes the price and the change rate, and leaves the profit rate
    and the profit/loss at the zeros of the insertion. *)
Theorem X11_no_derived_fields_without_positive_cost s ticker name qty cost price rate :
  cost <= 0 ->
  exists s2 l,
    update_price ticker price rate (snd (add_stock ticker name qty cost s))
    = (Ok true, s2)
    /\ get_stock ticker s2 = (Ok (Some l), s2)
    /\ deref s2 l = Some (mk_item ticker name qty cost price rate 0%float 0).
Proof.
  intros Hcost. rewrite update_price_after_add_stock. unfold reprice.
  cbn [buy_price]. destruct (Z.ltb_spec 0 cost) as [|_]; [lia|]. cbn [fst snd].
  eexists _, (length (heap s)). split; [reflexivity|].
  unfold get_stock, gets, deref. cbn [portfolio_map heap].
  rewrite dict_get_set_eq. split; [reflexivity|].
  now rewrite list_lookup_middle.
Qed.

Lemma X11_no_derived_fields_without_positive_cost_witness :
  -500 <= 0
  /\ exists s2 l,
       update_price "000002" 900 1.5%float
         (snd (add_stock "000002" "Negative" (-3) (-500) init))
       = (Ok true, s2)
       /\ get_stock "000002" s2 = (Ok (Some l), s2)
       /\ deref s2 l
          = Some (mk_item "000002" "Negative" (-3) (-500) 900 1.5%float 0%float 0).
Proof.
  split; [lia|].
  apply (X11_no_derived_fields_without_positive_cost init "000002" "Negative"
           (-3) (-500) 900 1.5%float).
  lia.
Defined.

End UpdateProperties.

(** ** Batches, summaries and histories *)

Section BatchProperties.
Import PortfolioEngine ThreadSafePortfolioEngine.

Local Set Warnings "-inexact-float".

Lemma total_value_unpriced recs :
  Forall (fun r => current_price r = 0) recs -> Spec.total Spec.value recs = 0.
Proof.
  unfold Spec.total. induction 1 as [|r rs Hr _ IH]; [reflexivity|].
  cbn [fold_right]. rewrite IH. unfold Spec.value. rewrite Hr. lia.
Qed.

(** X12. Batches compose: a batch made of two lists is the batch of the
    first followed, when it returns, by the batch of the second; when the
    first raises, the second is not started. *)
Theorem X12_batch_of_an_append us vs s :
  batch_update_prices (us ++ vs) s
  = match batch_update_prices us s with
    | (Ok _, s1) => batch_update_prices vs s1
    | (Raise e, s1) => (Raise e, s1)
    end.
Proof.
  rewrite !batch_update_prices_for_each, for_each_app. unfold bind.
  destruct (for_each us update_step s) as [[[]|e] s1]; [|reflexivity].
  now rewrite batch_update_prices_for_each.
Qed.

(** X13. A batch is not rolled back: when an entry raises, the entries
    before it stay applied, the entries after it are not applied, and the
    batch raises the same exception, leaving the store where the failing
    [update_price] left it. *)
Theorem X13_batch_stops_at_the_raising_entry pre ticker price rate post s s1 e s2 :
  batch_update_prices pre s = (Ok tt, s1) ->
  update_price ticker price rate s1 = (Raise e, s2) ->
  batch_update_prices (pre ++ (ticker, price, rate) :: post) s = (Raise e, s2).
Proof.
  intros Hpre Hu. rewrite !batch_update_prices_for_each in *.
  rewrite for_each_app. unfold bind at 1. rewrite Hpre. cbn [for_each].
  unfold bind at 1. now rewrite (update_price_update_step _ _ _ _ _ _ Hu).
Qed.

Lemma X13_batch_stops_at_the_raising_entry_witness :
  batch_update_prices [("005930"%string, 75000, 2.5%float)] Edge.two_priced
  = (Ok tt, snd (update_price "005930" 75000 2.5%float Edge.two_priced))
  /\ (exists s2,
         update_price "000001" Edge.huge 0.5%float
           (snd (update_price "005930" 75000 2.5%float Edge.two_priced))
         = (Raise OverflowError, s2)
         /\ batch_update_prices
              [("005930"%string, 75000, 2.5%float);
               ("000001"%string, Edge.huge, 0.5%float);
               ("005930"%string, 76000, 3.5%float)] Edge.two_priced
            = (Raise OverflowError, s2)
         /\ (exists r, record_of s2 "005930" = Some r /\ current_price r = 75000)).
Proof.
  split; [vm_compute; reflexivity|].
  exists (snd (update_price "000001" Edge.huge 0.5%float
                 (snd (update_price "005930" 75000 2.5%float Edge.two_priced)))).
  split; [vm_compute; reflexivity|]. split.
  - apply (X13_batch_stops_at_the_raising_entry
             [("005930"%string, 75000, 2.5%float)] "000001" Edge.huge 0.5%float
             [("005930"%string, 76000, 3.5%float)] Edge.two_priced
             (snd (update_price "005930" 75000 2.5%float Edge.two_priced))).
    + vm_compute. reflexivity.
    + vm_compute. reflexivity.
  - eexists. split; [vm_compute; reflexivity | reflexivity].
Defined.

(** X14. The total profit of the summary is the sum of the stored
    profit/loss fields when each record's profit/loss follows its price:
    this is so for the records with a positive buy price that have been
    updated, and fails for the others, whose stored profit/loss is 0. *)
Theorem X14_summary_profit_is_the_sum_of_the_records s recs sm s' :
  records s = Some recs ->
  Forall (fun r => profit_loss r
                   = Spec.profitLoss (buy_price r) (current_price r) (quantity r)) recs ->
  get_portfolio_summary s = (Ok sm, s') ->
  Summary.total_profit sm = Spec.total profit_loss recs.
Proof.
  intros Hrecs Hall. rewrite (get_portfolio_summary_records _ _ Hrecs).
  destruct (Spec.totalReturn _ _) as [ret|e]; [|discriminate].
  intros [= <- _]. cbn [Summary.total_profit].
  rewrite <- total_profit_difference. unfold Spec.total.
  clear Hrecs. induction Hall as [|r rs Hr _ IH]; [reflexivity|]. cbn [fold_right].
  rewrite IH, Hr. unfold Spec.profitLoss, Spec.value, Spec.cost. lia.
Qed.

Lemma X14_summary_profit_is_the_sum_of_the_records_witness :
  records (snd (update_price "005930" 75000 2.5%float Sample.one_stock))
  = Some [mk_item "005930" "Sample" 100 70000 75000 2.5%float
            ((1.0714285714285714 - 1) * 100)%float 500000]
  /\ get_portfolio_summary (snd (update_price "005930" 75000 2.5%float Sample.one_stock))
     = (Ok (Summary.mk 7000000 7500000 500000
              ((1.0714285714285714 - 1) * 100)%float 1),
        snd (update_price "005930" 75000 2.5%float Sample.one_stock))
  /\ 500000 = Spec.total profit_loss
                [mk_item "005930" "Sample" 100 70000 75000 2.5%float
                   ((1.0714285714285714 - 1) * 100)%float 500000].
Proof.
  split; [vm_compute; reflexivity|]. split; [vm_compute; reflexivity|].
  apply (X14_summary_profit_is_the_sum_of_the_records
           (snd (update_price "005930" 75000 2.5%float Sample.one_stock))
           [mk_item "005930" "Sample" 100 70000 75000 2.5%float
              ((1.0714285714285714 - 1) * 100)%float 500000]
           (Summary.mk 7000000 7500000 500000
              ((1.0714285714285714 - 1) * 100)%float 1)
           (snd (update_price "005930" 75000 2.5%float Sample.one_stock))).
  - vm_compute. reflexivity.
  - repeat constructor.
  - vm_compute. reflexivity.
Defined.

(** X15. A portfolio that has received no price shows a total loss: when
    every record is at price 0 and the total cost is positive, the summary
    returns a total value of 0, a total profit of minus the total cost and a
    total return of exactly -100. *)
Theorem X15_summary_of_an_unpriced_portfolio s recs :
  records s = Some recs ->
  Forall (fun r => current_price r = 0) recs ->
  0 < Spec.total Spec.cost recs ->
  get_portfolio_summary s
  = (Ok (Summary.mk (Spec.total Spec.cost recs) 0 (- Spec.total Spec.cost recs)
           (-100)%float (length recs)), s).
Proof.
  intros Hrecs Hall Hpos. rewrite (get_portfolio_summary_records _ _ Hrecs).
  rewrite (total_value_unpriced _ Hall). unfold Spec.totalReturn.
  destruct (Z.ltb_spec 0 (Spec.total Spec.cost recs)) as [_|]; [|lia].
  now rewrite (truediv_0_l _ Hpos).
Qed.

Lemma X15_summary_of_an_unpriced_portfolio_witness :
  records Edge.two_priced
  = Some [mk_item "005930" "Sample" 100 70000 0 0%float 0%float 0;
          mk_item "000001" "Penny" 5 1 0 0%float 0%float 0]
  /\ 0 < 7000005
  /\ get_portfolio_summary Edge.two_priced
     = (Ok (Summary.mk 7000005 0 (-7000005) (-100)%float 2), Edge.two_priced).
Proof.
  split; [reflexivity|]. split; [lia|].
  apply (X15_summary_of_an_unpriced_portfolio Edge.two_priced
           [mk_item "005930" "Sample" 100 70000 0 0%float 0%float 0;
            mk_item "000001" "Penny" 5 1 0 0%float 0%float 0]).
  - reflexivity.
  - repeat constructor.
  - vm_compute. reflexivity.
Defined.

End BatchProperties.

(** ** The notifying engine and the life of a store *)

Section LifeProperties.
Import PortfolioEngine.

(** X16. The statements of [update_and_notify] under the lock write the
    records as [update_price] does: they return when it returns, raise what
    it raises and leave the store that it leaves.  On an engine with no
    callback registered, the whole call does so, and touches nothing else. *)
Theorem X16_update_and_notify_writes_as_update_price {Env : Type}
    (w : DirectMemoryEngine.world Env) ticker price rate :
  DirectMemoryEngine.update_callbacks w = [] ->
  DirectMemoryEngine.locked_update ticker price rate (DirectMemoryEngine.engine w)
  = (match fst (update_price ticker price rate (DirectMemoryEngine.engine w)) with
     | Ok _ => Ok tt
     | Raise e => Raise e
     end,
     snd (update_price ticker price rate (DirectMemoryEngine.engine w)))
  /\ DirectMemoryEngine.update_and_notify ticker price rate w
     = (match fst (update_price ticker price rate (DirectMemoryEngine.engine w)) with
        | Ok _ => Ok tt
        | Raise e => Raise e
        end,
        DirectMemoryEngine.mk_world
          (snd (update_price ticker price rate (DirectMemoryEngine.engine w)))
          [] (DirectMemoryEngine.outside w)).
Proof.
  intros Hnone. rewrite update_and_notify_unfold, locked_update_update_step, Hnone.
  unfold update_step, bind.
  destruct (update_price ticker price rate (DirectMemoryEngine.engine w))
    as [[b|e] st']; split; reflexivity.
Qed.

Lemma X16_update_and_notify_writes_as_update_price_witness :
  DirectMemoryEngine.update_callbacks
    (DirectMemoryEngine.mk_world Sample.one_stock [] (@nil string)) = []
  /\ DirectMemoryEngine.update_and_notify "005930" 75000 2.5%float
       (DirectMemoryEngine.mk_world Sample.one_stock [] (@nil string))
     = (match fst (update_price "005930" 75000 2.5%float Sample.one_stock) with
        | Ok _ => Ok tt
        | Raise e => Raise e
        end,
        DirectMemoryEngine.mk_world
          (snd (update_price "005930" 75000 2.5%float Sample.one_stock))
          [] (@nil string)).
Proof.
  split; [reflexivity|].
  destruct (X16_update_and_notify_writes_as_update_price
              (DirectMemoryEngine.mk_world Sample.one_stock [] (@nil string))
              "005930" 75000 2.5%float) as [_ H].
  - reflexivity.
  - exact H.
Defined.

(** X17. No notification follows a failed update: when the statements
    under the lock raise, [update_and_notify] raises the same exception and
    calls no callback, so that the observers' side is untouched while the
    record keeps the writes made before the exception. *)
Theorem X17_no_notification_after_a_failed_update {Env : Type}
    (w : DirectMemoryEngine.world Env) ticker price rate e st' :
  DirectMemoryEngine.locked_update ticker price rate (DirectMemoryEngine.engine w)
  = (Raise e, st') ->
  DirectMemoryEngine.update_and_notify ticker price rate w
  = (Raise e,
     DirectMemoryEngine.mk_world st' (DirectMemoryEngine.update_callbacks w)
       (DirectMemoryEngine.outside w)).
Proof. intros H. now rewrite update_and_notify_unfold, H. Qed.

Lemma X17_no_notification_after_a_failed_update_witness :
  DirectMemoryEngine.locked_update "000001" Edge.huge 0.5%float Edge.penny_stock
  = (Raise OverflowError,
     snd (update_price "000001" Edge.huge 0.5%float Edge.penny_stock))
  /\ DirectMemoryEngine.update_and_notify "000001" Edge.huge 0.5%float
       (DirectMemoryEngine.mk_world Edge.penny_stock [Sample.logger "a"] [])
     = (Raise OverflowError,
        DirectMemoryEngine.mk_world
          (snd (update_price "000001" Edge.huge 0.5%float Edge.penny_stock))
          [Sample.logger "a"] []).
Proof.
  split; [vm_compute; reflexivity|].
  apply (X17_no_notification_after_a_failed_update
           (DirectMemoryEngine.mk_world Edge.penny_stock [Sample.logger "a"] [])
           "000001" Edge.huge 0.5%float OverflowError
           (snd (update_price "000001" Edge.huge 0.5%float Edge.penny_stock))).
  vm_compute. reflexivity.
Defined.

(** X18. [get_data_for_ui] leaves the engine as it is and returns the
    references of the map, in its order, with their number.  The statements
    of [update_and_notify] under the lock, whatever their outcome, change
    neither that list nor that number: right after them, before any callback
    runs, [get_data_for_ui] would return the same references and count. *)
Theorem X18_ui_data_is_stable {Env : Type}
    (w : DirectMemoryEngine.world Env) ls n w' :
  DirectMemoryEngine.get_data_for_ui w = (Ok (ls, n), w') ->
  w' = w
  /\ n = length ls
  /\ ls = map snd (portfolio_map (DirectMemoryEngine.engine w))
  /\ forall ticker price rate o st',
      DirectMemoryEngine.locked_update ticker price rate (DirectMemoryEngine.engine w)
      = (o, st') ->
      DirectMemoryEngine.get_data_for_ui
        (DirectMemoryEngine.mk_world st' (DirectMemoryEngine.update_callbacks w)
           (DirectMemoryEngine.outside w))
      = (Ok (ls, n),
         DirectMemoryEngine.mk_world st' (DirectMemoryEngine.update_callbacks w)
           (DirectMemoryEngine.outside w)).
Proof.
  unfold DirectMemoryEngine.get_data_for_ui, DirectMemoryEngine.on_store, gets.
  intros [= <- <- <-]. split; [now destruct w|]. split; [now rewrite length_map|].
  split; [reflexivity|]. intros ticker price rate o st'.
  rewrite locked_update_update_step. intros Hu.
  cbn [DirectMemoryEngine.engine DirectMemoryEngine.update_callbacks
         DirectMemoryEngine.outside].
  now rewrite (update_step_map _ _ _ _ Hu).
Qed.

Lemma X18_ui_data_is_stable_witness :
  DirectMemoryEngine.get_data_for_ui
    (DirectMemoryEngine.mk_world Sample.two_stocks [Sample.logger "a"] [])
  = (Ok ([0%nat; 1%nat], 2%nat),
     DirectMemoryEngine.mk_world Sample.two_stocks [Sample.logger "a"] [])
  /\ DirectMemoryEngine.locked_update "005930" 75000 2.5%float Sample.two_stocks
     = (Ok tt, snd (update_price "005930" 75000 2.5%float Sample.two_stocks))
  /\ DirectMemoryEngine.get_data_for_ui
       (DirectMemoryEngine.mk_world
          (snd (update_price "005930" 75000 2.5%float Sample.two_stocks))
          [Sample.logger "a"] [])
     = (Ok ([0%nat; 1%nat], 2%nat),
        DirectMemoryEngine.mk_world
          (snd (update_price "005930" 75000 2.5%float Sample.two_stocks))
          [Sample.logger "a"] []).
Proof.
  split; [reflexivity|]. split; [vm_compute; reflexivity|].
  destruct (X18_ui_data_is_stable
              (DirectMemoryEngine.mk_world Sample.two_stocks [Sample.logger "a"] [])
              [0%nat; 1%nat] 2%nat
              (DirectMemoryEngine.mk_world Sample.two_stocks [Sample.logger "a"] []))
    as (_ & _ & _ & H).
  - reflexivity.
  - apply (H "005930"%string 75000 2.5%float (Ok tt)
             (snd (update_price "005930" 75000 2.5%float Sample.two_stocks))).
    vm_compute. reflexivity.
Defined.

(** X19. Every mutating call, whatever it returns or raises, keeps a
    well-formed store well-formed: the keys of the map stay distinct, every
    ticker keeps a live record object, and no two tickers share one.  A new
    engine is well-formed. *)
Theorem X19_calls_keep_the_store_well_formed c s o s' :
  wf s ->
  run_call c s = (o, s') ->
  wf s' /\ wf init.
Proof.
  intros Hwf H. split; [eapply wf_run_call; eassumption | apply wf_init].
Qed.

Lemma X19_calls_keep_the_store_well_formed_witness :
  wf init
  /\ run_call (AddStock "005930" "Sample" 100 70000) init = (Ok tt, Sample.one_stock)
  /\ wf Sample.one_stock.
Proof.
  split; [apply wf_init|]. split; [reflexivity|].
  apply (X19_calls_keep_the_store_well_formed
           (AddStock "005930" "Sample" 100 70000) init (Ok tt) Sample.one_stock).
  - apply wf_init.
  - reflexivity.
Defined.

(** X20. No call removes a ticker, and only [add_stock] adds one: after
    any mutating call, whatever its outcome, a ticker is in the map exactly
    when it was there before or the call was an [add_stock] of it. *)
Theorem X20_tickers_are_only_added_by_add_stock c s o s' t :
  run_call c s = (o, s') ->
  dict_mem t (portfolio_map s') = true
  <-> (dict_mem t (portfolio_map s) = true
       \/ exists name qty cost, c = AddStock t name qty cost).
Proof.
  destruct c as [t0 n q b|t0 p r|us]; cbn [run_call]; intros H.
  - rewrite add_stock_store in H. injection H as _ <-. cbn [portfolio_map].
    rewrite dict_mem_set, orb_true_iff. split.
    + intros [E|E]; [right | now left].
      apply String.eqb_eq in E as ->. now exists n, q, b.
    + intros [E|(n' & q' & b' & [= -> _ _ _])]; [now right | left].
      apply String.eqb_refl.
  - rewrite (update_step_map (t0, p, r) _ _ _ H). split; [now left|].
    intros [E|(n' & q' & b' & E)]; [exact E | discriminate E].
  - rewrite (batch_map _ _ _ _ H). split; [now left|].
    intros [E|(n' & q' & b' & E)]; [exact E | discriminate E].
Qed.

Lemma X20_tickers_are_only_added_by_add_stock_witness :
  run_call (UpdatePrice "035420" 200000 0.5%float) Sample.one_stock
  = (Ok tt, Sample.one_stock)
  /\ (dict_mem "035420" (portfolio_map Sample.one_stock) = true
      <-> (dict_mem "035420" (portfolio_map Sample.one_stock) = true
           \/ exists name qty cost,
               UpdatePrice "035420" 200000 0.5%float = AddStock "035420" name qty cost)).
Proof.
  split; [reflexivity|].
  apply (X20_tickers_are_only_added_by_add_stock
           (UpdatePrice "035420" 200000 0.5%float) Sample.one_stock (Ok tt)
           Sample.one_stock "035420").
  reflexivity.
Defined.

End LifeProperties.

(** ** The summary across updates *)

Section SummaryAcrossUpdates.
Import PortfolioEngine.
Implicit Types (s : store) (l : loc) (r : item).

Local Set Warnings "-inexact-float".

(** What the summary returns, when it returns, in terms of the records. *)
Lemma get_portfolio_summary_Ok_inv s recs sm s' :
  records s = Some recs ->
  get_portfolio_summary s = (Ok sm, s') ->
  Summary.total_cost sm = Spec.total Spec.cost recs
  /\ Summary.total_value sm = Spec.total Spec.value recs
  /\ Summary.count sm = length recs.
Proof.
  intros Hrecs. rewrite (get_portfolio_summary_records _ _ Hrecs).
  destruct (Spec.totalReturn _ _); [|discriminate]. intros [= <- _]. now cbn.
Qed.

(** The records behind the same references after one object was replaced:
    the totals move by the difference of the two objects, when the
    replaced object is among the references. *)
Lemma deref_all_replace (f : item -> Z) s l r r' ls recs :
  NoDup ls ->
  heap s !! l = Some r ->
  deref_all s ls = Some recs ->
  exists recs',
    deref_all (mk_store (<[l := r']> (heap s)) (portfolio_map s)) ls = Some recs'
    /\ length recs' = length recs
    /\ Spec.total f recs'
       = Spec.total f recs + (if decide (l ∈ ls) then f r' - f r else 0).
Proof.
  intros Hnd Hr. revert recs.
  induction Hnd as [|l0 ls Hl0 _ IH]; intros recs; cbn [deref_all].
  - intros [= <-]. exists []. cbn. repeat split; lia.
  - unfold deref. cbn [heap].
    destruct (heap s !! l0) as [r0|] eqn:Hr0; [|discriminate].
    destruct (deref_all s ls) as [rs|] eqn:Hrs; [|discriminate].
    intros [= <-]. destruct (IH rs eq_refl) as (rs' & Hrs' & Hlen & Htot).
    rewrite Hrs'. destruct (decide (l = l0)) as [<-|Hne].
    + rewrite (heap_insert_lookup _ _ _ _ Hr). exists (r' :: rs').
      split; [reflexivity|]. split; [cbn; lia|].
      assert (r0 = r) as -> by congruence.
      destruct (decide (l ∈ ls)) as [Hin|_]; [contradiction|].
      destruct (decide (l ∈ l :: ls)) as [_|Hout];
        [|exfalso; apply Hout; left].
      unfold Spec.total in *. cbn [fold_right]. lia.
    + rewrite list_lookup_insert_ne by exact Hne. rewrite Hr0.
      exists (r0 :: rs'). split; [reflexivity|]. split; [cbn; lia|].
      destruct (decide (l ∈ ls)) as [Hin|Hout];
        destruct (decide (l ∈ l0 :: ls)) as [Hin'|Hout'];
        unfold Spec.total in *; cbn [fold_right]; try lia.
      * exfalso. apply Hout'. now right.
      * exfalso. apply elem_of_cons in Hin' as [E|Hin']; [congruence | contradiction].
Qed.

(** The records of a store after [update_price] on a ticker it holds. *)
Lemma records_after_update (f : item -> Z) s ticker price rate o s' l r recs :
  wf s ->
  dict_get ticker (portfolio_map s) = Some l ->
  heap s !! l = Some r ->
  update_price ticker price rate s = (o, s') ->
  records s = Some recs ->
  exists recs',
    records s' = Some recs'
    /\ length recs' = length recs
    /\ Spec.total f recs'
       = Spec.total f recs + (f (snd (reprice price rate r)) - f r).
Proof.
  intros (_ & Hnd & _) Hl Hr Hu Hrecs.
  rewrite (update_price_present _ _ _ _ _ _ Hl Hr) in Hu. injection Hu as _ <-.
  unfold records in *. cbn [portfolio_map].
  destruct (deref_all_replace f s l r (snd (reprice price rate r)) _ _ Hnd Hr Hrecs)
    as (recs' & H1 & H2 & H3).
  exists recs'. split; [exact H1|]. split; [exact H2|]. rewrite H3.
  destruct (decide (l ∈ map snd (portfolio_map s))) as [_|Hout]; [reflexivity|].
  exfalso. apply Hout, list_elem_of_In, in_map_iff.
  exists (ticker, l). split; [reflexivity | now apply dict_get_In].
Qed.

End SummaryAcrossUpdates.

Section SummaryProperties.
Import PortfolioEngine.

Local Set Warnings "-inexact-float".

(** X21. Enumeration follows insertion: after [add_stock] of a ticker that
    the map does not hold, [get_all_stocks] returns the references it
    returned before, in the same order, followed by the reference of the new
    record. *)
Theorem X21_new_record_is_listed_last s ticker name qty cost refs :
  get_stock ticker s = (Ok None, s) ->
  get_all_stocks s = (Ok refs, s) ->
  exists s' l,
    add_stock ticker name qty cost s = (Ok tt, s')
    /\ get_stock ticker s' = (Ok (Some l), s')
    /\ get_all_stocks s' = (Ok (refs ++ [l]), s').
Proof.
  unfold get_stock, get_all_stocks, gets. intros [= Hl] [= <-].
  rewrite add_stock_store. eexists _, (length (heap s)).
  split; [reflexivity|]. cbn [portfolio_map]. rewrite dict_get_set_eq.
  split; [reflexivity|]. rewrite dict_set_values_new; [reflexivity|].
  unfold dict_mem. now rewrite Hl.
Qed.

Lemma X21_new_record_is_listed_last_witness :
  get_stock "000000" Sample.one_stock = (Ok None, Sample.one_stock)
  /\ get_all_stocks Sample.one_stock = (Ok [0%nat], Sample.one_stock)
  /\ exists s' l,
       add_stock "000000" "Free" 10 0 Sample.one_stock = (Ok tt, s')
       /\ get_stock "000000" s' = (Ok (Some l), s')
       /\ get_all_stocks s' = (Ok ([0%nat] ++ [l]), s').
Proof.
  split; [reflexivity|]. split; [reflexivity|].
  apply (X21_new_record_is_listed_last Sample.one_stock "000000" "Free" 10 0 [0%nat]).
  - reflexivity.
  - reflexivity.
Defined.

(** X22. A price update moves the summary by the updated record alone: on
    a well-formed store, after [update_price] on a ticker whose record had
    the price [current_price r], the summary, when it returns before and
    after, has the same total cost and the same count, and a total value
    changed by [(price - current_price r) * quantity r]. *)
Theorem X22_update_moves_the_summary_by_one_record
    s ticker l r price rate o s' sm sm' :
  wf s ->
  get_stock ticker s = (Ok (Some l), s) ->
  deref s l = Some r ->
  update_price ticker price rate s = (o, s') ->
  get_portfolio_summary s = (Ok sm, s) ->
  get_portfolio_summary s' = (Ok sm', s') ->
  Summary.total_cost sm' = Summary.total_cost sm
  /\ Summary.count sm' = Summary.count sm
  /\ Summary.total_value sm'
     = Summary.total_value sm + (price - current_price r) * quantity r.
Proof.
  unfold get_stock, gets, deref. intros Hwf [= Hl] Hr Hu Hsm Hsm'.
  destruct (wf_records s Hwf) as [recs Hrecs].
  destruct (get_portfolio_summary_Ok_inv _ _ _ _ Hrecs Hsm) as (-> & -> & ->).
  pose proof (reprice_same_position price rate r) as (_ & _ & Hq & Hb).
  pose proof (reprice_price_fields price rate r) as [Hp _].
  destruct (records_after_update Spec.cost _ _ _ _ _ _ _ _ _ Hwf Hl Hr Hu Hrecs)
    as (recs1 & Hrecs1 & Hlen & Hcost).
  destruct (records_after_update Spec.value _ _ _ _ _ _ _ _ _ Hwf Hl Hr Hu Hrecs)
    as (recs2 & Hrecs2 & _ & Hvalue).
  assert (recs2 = recs1) as -> by congruence.
  destruct (get_portfolio_summary_Ok_inv _ _ _ _ Hrecs1 Hsm') as (-> & -> & ->).
  rewrite Hcost, Hvalue, Hlen. unfold Spec.cost, Spec.value.
  rewrite Hq, Hb, Hp. repeat split; lia.
Qed.

Lemma X22_update_moves_the_summary_by_one_record_witness :
  wf Sample.one_stock
  /\ get_portfolio_summary Sample.one_stock
     = (Ok (Summary.mk 7000000 0 (-7000000) (-100)%float 1), Sample.one_stock)
  /\ get_portfolio_summary (snd (update_price "005930" 140000 2.5%float Sample.one_stock))
     = (Ok (Summary.mk 7000000 14000000 7000000 100%float 1),
        snd (update_price "005930" 140000 2.5%float Sample.one_stock))
  /\ 14000000 = 0 + (140000 - 0) * 100.
Proof.
  assert (H : wf Sample.one_stock) by (apply wf_add_stock, wf_init).
  split; [exact H|]. split; [vm_compute; reflexivity|].
  split; [vm_compute; reflexivity|].
  destruct (X22_update_moves_the_summary_by_one_record Sample.one_stock
              "005930" 0%nat (mk_item "005930" "Sample" 100 70000 0 0%float 0%float 0)
              140000 2.5%float (Ok true)
              (snd (update_price "005930" 140000 2.5%float Sample.one_stock))
              (Summary.mk 7000000 0 (-7000000) (-100)%float 1)
              (Summary.mk 7000000 14000000 7000000 100%float 1))
    as (_ & _ & Hv).
  - exact H.
  - reflexivity.
  - reflexivity.
  - vm_compute. reflexivity.
  - vm_compute. reflexivity.
  - vm_compute. reflexivity.
  - exact Hv.
Defined.

End SummaryProperties.
